(** * The desktop shell of the chore list application (main.js)

    main.js is the Electron main script.  It spawns the Flask API as a
    child process, waits until the API looks ready, opens a window on the
    API's root page and kills the child when the application closes.

    The script is a set of event handlers over two module-level variables
    ([flaskProcess], [mainWindow]), one promise and a few timers.  It is
    embedded as state transformers over an explicit [State]; every call
    that leaves the script (spawn, kill, new BrowserWindow, loadURL,
    console output, app.quit) is appended, with the time at which it
    happens, to a trace.  The events the runtime delivers to the script
    are the constructors of [Stimulus]. *)

From Stdlib Require Import String List Arith Lia Bool Sorted.
From stdpp Require Import base list gmap strings.
Import ListNotations.
Open Scope string_scope.
Open Scope list_scope.
Open Scope stdpp_scope.
Open Scope nat_scope.

(** ** Data *)

(** What the script reads from its surroundings: [__dirname],
    [process.env] and [process.platform]. *)
Record Host := {
  dirname : string;
  process_env : gmap string string;
  platform : string
}.

(** The options object and the child handle of [child_process.spawn]. *)
Record SpawnOptions := {
  cwd : string;
  env : gmap string string
}.

Record ChildProcess := {
  command : string;
  args : list string;
  options : SpawnOptions
}.

(** The options object of [new BrowserWindow]; [icon] keeps the two
    arguments of [path.join]. *)
Record WindowOptions := {
  width : nat;
  height : nat;
  icon : string * string;
  nodeIntegration : bool;
  contextIsolation : bool;
  title : string;
  backgroundColor : string
}.

(** A chunk of the child's output, as the two data handlers get it.  The
    script reads a chunk through its UTF-8 decoding only: line 19 calls
    [data.toString()], and the template strings of lines 17 and 25
    convert the Buffer with the same [toString].  A chunk is modelled by
    that text; bytes that are not UTF-8 (a character cut by the end of
    the chunk) show in it as U+FFFD already. *)
Record Buffer := {
  toString : string
}.

(** The chunk whose decoding is [text]. *)
Definition chunk (text : string) : Buffer := {| toString := text |}.

(** The two functions handed to [setTimeout]: [resolve] (lines 20 and 34)
    and the closure [() => mainWindow.loadURL(...)] (lines 64-66). *)
Inductive Callback :=
| CbResolve
| CbRetryLoad.

(** A pending timer: when it is due and what it calls.  The script never
    clears a timer, so timers need no identifiers. *)
Record Timer := {
  due : nat;
  cb : Callback
}.

(** The promise made by [startFlaskServer]. *)
Inductive Promise :=
| Pending
| Fulfilled
| Rejected (error : string).

(** What is recorded of a run: the calls that leave the script, and the
    timer callbacks the event loop calls ([Fired]). *)
Inductive Effect :=
| Spawn (child : ChildProcess)
| Kill (child : ChildProcess)
| NewBrowserWindow (w : nat) (opts : WindowOptions)
| LoadURL (w : nat) (url : string)
| ConsoleLog (msg : list string)
| ConsoleError (msg : list string)
| AppQuit
| Uncaught (exn : string)
| Fired (c : Callback).

Record State := {
  host : Host;
  flaskProcess : option ChildProcess;
  mainWindow : option nat;
  promise : Promise;
  timers : list Timer;
  windows : list nat;
  nextWindow : nat;
  now : nat;
  terminated : bool;
  trace : list (nat * Effect)
}.

(** Before the ready event: both variables are [null] (lines 5-6), no
    window is open, no timer is pending, the clock reads 0. *)
Definition init (h : Host) : State :=
  {| host := h; flaskProcess := None; mainWindow := None;
     promise := Pending; timers := [];
     windows := []; nextWindow := 0; now := 0;
     terminated := false; trace := [] |}.

(** *** Field updates *)

Definition set_flaskProcess (v : option ChildProcess) (s : State) : State :=
  {| host := host s; flaskProcess := v; mainWindow := mainWindow s;
     promise := promise s; timers := timers s;
     windows := windows s; nextWindow := nextWindow s; now := now s;
     terminated := terminated s; trace := trace s |}.

Definition set_mainWindow (v : option nat) (s : State) : State :=
  {| host := host s; flaskProcess := flaskProcess s; mainWindow := v;
     promise := promise s; timers := timers s;
     windows := windows s; nextWindow := nextWindow s; now := now s;
     terminated := terminated s; trace := trace s |}.

Definition set_promise (v : Promise) (s : State) : State :=
  {| host := host s; flaskProcess := flaskProcess s;
     mainWindow := mainWindow s;
     promise := v; timers := timers s;
     windows := windows s; nextWindow := nextWindow s; now := now s;
     terminated := terminated s; trace := trace s |}.

Definition set_timers (v : list Timer) (s : State) : State :=
  {| host := host s; flaskProcess := flaskProcess s;
     mainWindow := mainWindow s;
     promise := promise s; timers := v;
     windows := windows s; nextWindow := nextWindow s; now := now s;
     terminated := terminated s; trace := trace s |}.

Definition set_windows (v : list nat) (n : nat) (s : State) : State :=
  {| host := host s; flaskProcess := flaskProcess s;
     mainWindow := mainWindow s;
     promise := promise s; timers := timers s;
     windows := v; nextWindow := n; now := now s;
     terminated := terminated s; trace := trace s |}.

Definition set_now (v : nat) (s : State) : State :=
  {| host := host s; flaskProcess := flaskProcess s;
     mainWindow := mainWindow s;
     promise := promise s; timers := timers s;
     windows := windows s; nextWindow := nextWindow s; now := v;
     terminated := terminated s; trace := trace s |}.

Definition set_terminated (v : bool) (s : State) : State :=
  {| host := host s; flaskProcess := flaskProcess s;
     mainWindow := mainWindow s;
     promise := promise s; timers := timers s;
     windows := windows s; nextWindow := nextWindow s; now := now s;
     terminated := v; trace := trace s |}.

(** An effect is recorded with the current time. *)
Definition emit (e : Effect) (s : State) : State :=
  {| host := host s; flaskProcess := flaskProcess s;
     mainWindow := mainWindow s;
     promise := promise s; timers := timers s;
     windows := windows s; nextWindow := nextWindow s; now := now s;
     terminated := terminated s; trace := trace s ++ [(now s, e)] |}.

(** ** Library calls *)

(** [haystack.includes(needle)]. *)
Fixpoint includes (needle haystack : string) : bool :=
  String.prefix needle haystack ||
  match haystack with
  | EmptyString => false
  | String _ rest => includes needle rest
  end.

(** [setTimeout(c, delay)]: the timer is due [delay] ms from now and
    queues behind the timers already pending. *)
Definition setTimeout (c : Callback) (delay : nat) (s : State) : State :=
  set_timers (timers s ++ [{| due := now s + delay; cb := c |}]) s.

Definition console_log (msg : list string) : State -> State :=
  emit (ConsoleLog msg).

Definition console_error (msg : list string) : State -> State :=
  emit (ConsoleError msg).

(** ** main.js *)

Definition root_url : string := "http://localhost:5000".

(** Lines 57-59: the window's closed handler. *)
Definition on_closed (s : State) : State :=
  set_mainWindow None s.

(** Lines 97-101: the application's quit handler. *)
Definition on_quit (s : State) : State :=
  match flaskProcess s with
  | Some child => emit (Kill child) s
  | None => s
  end.

(** What Electron does when the application quits, whether through
    [app.quit()] or through the user's quit command: every open window is
    closed (each runs its closed handler), window-all-closed is not
    emitted, the quit event is emitted and the process ends.  A second
    quit while quitting does nothing. *)
Definition close_all (s : State) : State :=
  set_windows [] (nextWindow s)
    (fold_left (fun acc _ => on_closed acc) (windows s) s).

Definition quit_sequence (s : State) : State :=
  if terminated s then s
  else set_terminated true (on_quit (close_all s)).

(** [app.quit()]. *)
Definition app_quit (s : State) : State :=
  quit_sequence (emit AppQuit s).

(** Lines 38-68: createWindow.  The two handlers registered at the end
    are [on_closed] and [on_did_fail_load]. *)
Definition window_options (h : Host) : WindowOptions :=
  {| width := 1200; height := 800;
     icon := (dirname h, "assets/icon.png");
     nodeIntegration := false; contextIsolation := true;
     title := "Chore List App"; backgroundColor := "#667eea" |}.

Definition createWindow (s : State) : State :=
  let w := nextWindow s in
  let s1 := emit (NewBrowserWindow w (window_options (host s))) s in
  let s2 := set_windows (windows s1 ++ [w]) (S w) s1 in
  let s3 := set_mainWindow (Some w) s2 in
  emit (LoadURL w root_url) s3.

(** Lines 62-67: the did-fail-load handler of a window's contents. *)
Definition on_did_fail_load (s : State) : State :=
  setTimeout CbRetryLoad 1000 (console_log ["Failed to load, retrying..."] s).

(** Lines 64-66: the retry closure.  It reads the variable [mainWindow]
    when it runs; calling a method of [null] throws a TypeError, which
    nothing catches. *)
Definition retry_load (s : State) : State :=
  match mainWindow s with
  | Some w => emit (LoadURL w root_url) s
  | None => emit (Uncaught "TypeError") s
  end.

(** Lines 70-80, after the await.  The ready handler is suspended at
    [await startFlaskServer()] from the moment the promise is made until
    it is settled; it then goes on at line 74 or in the catch block. *)
Definition ready_resume (s : State) : State :=
  createWindow (console_log ["Creating window..."] s).

Definition ready_catch (error : string) (s : State) : State :=
  app_quit (console_error ["Failed to start application:"; error] s).

(** The promise's [resolve] and [reject]: only the first call settles the
    promise, later calls do nothing. *)
Definition resolve (s : State) : State :=
  match promise s with
  | Pending => ready_resume (set_promise Fulfilled s)
  | _ => s
  end.

Definition reject (error : string) (s : State) : State :=
  match promise s with
  | Pending => ready_catch error (set_promise (Rejected error) s)
  | _ => s
  end.

(** Lines 16-22: the stdout data handler.  The template string of line
    17 and line 19 both read [data.toString()]. *)
Definition on_stdout_data (data : Buffer) (s : State) : State :=
  let s1 := console_log ["Flask: " +:+ toString data] s in
  if includes "Running on" (toString data)
  then setTimeout CbResolve 1000 s1 else s1.

(** Lines 24-26: the stderr data handler; the template string reads
    [data.toString()]. *)
Definition on_stderr_data (data : Buffer) (s : State) : State :=
  console_error ["Flask Error: " +:+ toString data] s.

(** Lines 28-31: the child's error handler. *)
Definition on_process_error (error : string) (s : State) : State :=
  reject error (console_error ["Failed to start Flask: " +:+ error] s).

(** Lines 11-14: the child that is spawned. *)
Definition flask_child (h : Host) : ChildProcess :=
  {| command := "python3"; args := ["app.py"];
     options := {| cwd := dirname h;
                   env := <["FLASK_ENV" := "production"]> (process_env h) |} |}.

(** Lines 8-36: the body of the promise in startFlaskServer. *)
Definition startFlaskServer (s : State) : State :=
  let child := flask_child (host s) in
  let s1 := set_flaskProcess (Some child) (emit (Spawn child) s) in
  setTimeout CbResolve 3000 s1.

(** Lines 70-73: the ready handler up to the await. *)
Definition on_ready (s : State) : State :=
  startFlaskServer (console_log ["Starting Flask server..."] s).

(** Lines 82-88: the window-all-closed handler. *)
Definition on_window_all_closed (s : State) : State :=
  let s1 := match flaskProcess s with
            | Some child => emit (Kill child) s
            | None => s
            end in
  app_quit s1.

(** Lines 90-94: the activate handler. *)
Definition on_activate (s : State) : State :=
  match mainWindow s with
  | None => createWindow s
  | Some _ => s
  end.

(** ** The event loop *)

Definition run_callback (c : Callback) (s : State) : State :=
  match c with
  | CbResolve => resolve s
  | CbRetryLoad => retry_load s
  end.

(** The pending timer that fires next, and the timers left: the one due
    first, and of two due together the one set first. *)
Fixpoint pop_earliest (ts : list Timer) : option (Timer * list Timer) :=
  match ts with
  | [] => None
  | t :: rest =>
      match pop_earliest rest with
      | Some (u, rest') =>
          if due u <? due t then Some (u, t :: rest') else Some (t, rest)
      | None => Some (t, [])
      end
  end.

(** Fire, in order, the timers due up to [target].  A callback runs when
    its timer is due, or at once when the timer is overdue. *)
Fixpoint fire (fuel target : nat) (s : State) : State :=
  match fuel with
  | 0 => s
  | S fuel' =>
      if terminated s then s
      else
        match pop_earliest (timers s) with
        | Some (t, rest) =>
            if due t <=? target then
              let s1 := set_now (Nat.max (now s) (due t)) (set_timers rest s) in
              fire fuel' target (run_callback (cb t) (emit (Fired (cb t)) s1))
            else s
        | None => s
        end
  end.

(** [ms] milliseconds pass.  No callback of the script sets a timer, so
    one round per pending timer is enough (lemma [fire_exhaustive]). *)
Definition elapse (ms : nat) (s : State) : State :=
  let target := now s + ms in
  let s1 := fire (length (timers s)) target s in
  if terminated s1 then s1 else set_now target s1.

(** What the runtime delivers to the script after the ready event. *)
Inductive Stimulus :=
| ProcStdout (data : Buffer)
| ProcStderr (data : Buffer)
| ProcError (error : string)
| DidFailLoad (w : nat)
| UserCloses (w : nat)
| Activate
| UserQuits
| Elapse (ms : nat).

Definition is_open (w : nat) (s : State) : bool :=
  existsb (Nat.eqb w) (windows s).

(** The user closes window [w]: the window leaves the list of open
    windows and runs its closed handler; when it was the last one the
    application gets window-all-closed. *)
Definition close_window (w : nat) (s : State) : State :=
  let remaining := List.filter (fun x => negb (x =? w)) (windows s) in
  let s1 := on_closed (set_windows remaining (nextWindow s) s) in
  match remaining with
  | [] => on_window_all_closed s1
  | _ :: _ => s1
  end.

(** Once the process has ended nothing is delivered any more; events of a
    window that is not open do not occur. *)
Definition stimulus (ev : Stimulus) (s : State) : State :=
  if terminated s then s
  else
    match ev with
    | ProcStdout data => on_stdout_data data s
    | ProcStderr data => on_stderr_data data s
    | ProcError error => on_process_error error s
    | DidFailLoad w => if is_open w s then on_did_fail_load s else s
    | UserCloses w => if is_open w s then close_window w s else s
    | Activate => on_activate s
    | UserQuits => quit_sequence s
    | Elapse ms => elapse ms s
    end.

Fixpoint run (evs : list Stimulus) (s : State) : State :=
  match evs with
  | [] => s
  | ev :: rest => run rest (stimulus ev s)
  end.

(** The application is launched on host [h]: Electron emits ready. *)
Definition boot (h : Host) : State := on_ready (init h).

(** ** Reading the trace *)

Definition effects (s : State) : list Effect := map snd (trace s).

(** The times at which an effect satisfying [p] happened. *)
Definition times_of (p : Effect -> bool) (s : State) : list nat :=
  map fst (List.filter (fun te => p (snd te)) (trace s)).

Definition is_kill (e : Effect) : bool :=
  match e with Kill _ => true | _ => false end.

Definition is_spawn (e : Effect) : bool :=
  match e with Spawn _ => true | _ => false end.

Definition is_new_window (e : Effect) : bool :=
  match e with NewBrowserWindow _ _ => true | _ => false end.

Definition is_app_quit (e : Effect) : bool :=
  match e with AppQuit => true | _ => false end.


(** Line 74: the ready handler has passed the await. *)
Definition is_creating_window (e : Effect) : bool :=
  match e with
  | ConsoleLog ["Creating window..."] => true
  | _ => false
  end.

Definition kills (s : State) : nat := length (times_of is_kill s).

(** A host to run the script on. *)
Definition example_host : Host :=
  {| dirname := "/opt/chore-list-app";
     process_env := {["PATH" := "/usr/bin"]};
     platform := "darwin" |}.

(** The same host seen as platform [p]. *)
Definition with_platform (p : string) (h : Host) : Host :=
  {| dirname := dirname h; process_env := process_env h; platform := p |}.

Definition rehost (p : string) (s : State) : State :=
  {| host := with_platform p (host s); flaskProcess := flaskProcess s;
     mainWindow := mainWindow s;
     promise := promise s; timers := timers s;
     windows := windows s; nextWindow := nextWindow s; now := now s;
     terminated := terminated s; trace := trace s |}.

(** ** Some runs *)

(** The readiness text never comes; the window opens on the fallback
    timer and the user closes it. *)
Definition run_close_window : State :=
  run [Elapse 3000; UserCloses 0] (boot example_host).

(** The user quits from the menu while the window is open. *)
Definition run_user_quits : State :=
  run [ProcStdout (chunk " * Running on http://127.0.0.1:5000"); Elapse 1000;
       UserQuits] (boot example_host).

(** The child reports an error at once. *)
Definition run_early_error : State :=
  run [ProcError "Error: spawn python3 ENOENT"; Elapse 3000; Activate]
    (boot example_host).

(** The page fails to load, is retried, fails again, is retried again;
    then the window is closed and the application is activated anew. *)
Definition events_two_failures : list Stimulus :=
  [Elapse 3000; DidFailLoad 0; Elapse 1000; DidFailLoad 0; Elapse 1000].

(** ** Reading a run *)

Definition is_resolve (c : Callback) : bool :=
  match c with CbResolve => true | CbRetryLoad => false end.

Definition is_retry (c : Callback) : bool :=
  match c with CbRetryLoad => true | CbResolve => false end.

(** When the pending timers of one kind are due, in queue order. *)
Definition dues (p : Callback -> bool) (s : State) : list nat :=
  map due (List.filter (fun t => p (cb t)) (timers s)).

(** Line 63: the did-fail-load handler has run. *)
Definition is_load_failed (e : Effect) : bool :=
  match e with
  | ConsoleLog ["Failed to load, retrying..."] => true
  | _ => false
  end.

(** The event loop has called the retry closure. *)
Definition is_retry_fired (e : Effect) : bool :=
  match e with Fired CbRetryLoad => true | _ => false end.

(** The clock after the events [evs], started at [t]. *)
Fixpoint clock (evs : list Stimulus) (t : nat) : nat :=
  match evs with
  | [] => t
  | Elapse ms :: rest => clock rest (t + ms)
  | _ :: rest => clock rest t
  end.

(** When the child first prints the readiness text, if it does. *)
Fixpoint first_ready (evs : list Stimulus) (t : nat) : option nat :=
  match evs with
  | [] => None
  | ProcStdout data :: rest =>
      if includes "Running on" (toString data) then Some t
      else first_ready rest t
  | Elapse ms :: rest => first_ready rest (t + ms)
  | _ :: rest => first_ready rest t
  end.

(** The first of: one second after the readiness text, three seconds
    after the ready event. *)
Definition open_time (evs : list Stimulus) : nat :=
  match first_ready evs 0 with
  | Some t => Nat.min (t + 1000) 3000
  | None => 3000
  end.

(** The earliest resolve timer after the events [evs], when it was [D]
    at time [t]. *)
Fixpoint deadline (evs : list Stimulus) (t D : nat) : nat :=
  match evs with
  | [] => D
  | ProcStdout data :: rest =>
      deadline rest t
        (if includes "Running on" (toString data)
         then Nat.min D (t + 1000) else D)
  | Elapse ms :: rest => deadline rest (t + ms) D
  | _ :: rest => deadline rest t D
  end.

(** What the trace shows when the resolve timer lets the ready handler
    go on: line 74, then createWindow. *)
Definition opening (h : Host) (T w : nat) : list (nat * Effect) :=
  [(T, Fired CbResolve);
   (T, ConsoleLog ["Creating window..."]);
   (T, NewBrowserWindow w (window_options h));
   (T, LoadURL w root_url)].

(** The application waits for the API: the promise is pending and the
    earliest resolve timer is due at [D]. *)
Definition Waiting (h : Host) (D : nat) (s : State) : Prop :=
  host s = h /\ terminated s = false /\ promise s = Pending /\
  now s <= D /\ In D (dues is_resolve s) /\
  (forall d, In d (dues is_resolve s) -> D <= d) /\
  times_of is_creating_window s = [].

(** The ready handler has gone on, at time [T], and opened a window. *)
Definition Opened (h : Host) (T : nat) (s : State) : Prop :=
  host s = h /\ promise s = Fulfilled /\
  times_of is_creating_window s = [T] /\
  exists pre w post, trace s = pre ++ opening h T w ++ post.


(** Every pending timer is due later: the state between two events. *)
Definition settled (s : State) : Prop :=
  forall t, In t (timers s) -> now s < due t.

(** While the promise is pending at most one window is open, and the
    variable [mainWindow] holds it. *)
Definition single_window (s : State) : Prop :=
  promise s = Pending ->
  (windows s = [] /\ mainWindow s = None) \/
  (exists w, windows s = [w] /\ mainWindow s = Some w).


(** The retries of a run, read off three lists: when the did-fail-load
    handler ran, when the retry closure was called, and the timers
    pending at time [n].  Every failure has its retry one second later,
    called already or still pending, in the order of the failures. *)
Definition retry_view (fails fired : list nat) (ts : list Timer) (n : nat)
  : Prop :=
  map (fun t => t + 1000) fails
    = fired ++ map due (List.filter (fun t => is_retry (cb t)) ts) /\
  Forall (fun d => d <= n + 1000)
    (map due (List.filter (fun t => is_retry (cb t)) ts)) /\
  StronglySorted le (map due (List.filter (fun t => is_retry (cb t)) ts)) /\
  Forall (fun t => t <= n) fired /\
  (forall t, In t ts -> n <= due t).

Definition retry_inv (s : State) : Prop :=
  retry_view (times_of is_load_failed s) (times_of is_retry_fired s)
    (timers s) (now s).

(** ** Invariants of a run *)

(** The variable [flaskProcess] is assigned once, in startFlaskServer,
    and never reset. *)
Definition same_child (s s' : State) : Prop :=
  flaskProcess s' = flaskProcess s /\ host s' = host s.

Definition kill_inv (s : State) : Prop :=
  if terminated s then 1 <= kills s <= 2 else kills s = 0.

Definition ok_effect (h : Host) (e : Effect) : Prop :=
  match e with
  | Spawn c => c = flask_child h
  | Kill c => c = flask_child h
  | NewBrowserWindow _ opts => opts = window_options h
  | LoadURL _ url => url = root_url
  | _ => True
  end.

Definition ok_state (h : Host) (s : State) : Prop :=
  host s = h /\ flaskProcess s = Some (flask_child h) /\
  Forall (ok_effect h) (effects s).

(** The deadline after one event that is not the passing of time. *)
Definition deadline_step (ev : Stimulus) (t D : nat) : nat :=
  match ev with
  | ProcStdout data =>
      if includes "Running on" (toString data)
      then Nat.min D (t + 1000) else D
  | _ => D
  end.

(** While the promise is pending only the activate handler makes a
    window. *)
Definition no_window_yet (s : State) : Prop :=
  promise s = Pending -> times_of is_new_window s = [].

(** Line 77: the ready handler is in its catch block. *)
Definition is_start_failed (e : Effect) : bool :=
  match e with
  | ConsoleError ("Failed to start application:" :: _) => true
  | _ => false
  end.

(** The ready handler goes on past its await once, on one of its two
    paths, and which one shows in the promise. *)
Definition ready_once (s : State) : Prop :=
  match promise s with
  | Pending =>
      times_of is_creating_window s = [] /\ times_of is_start_failed s = []
  | Fulfilled =>
      length (times_of is_creating_window s) = 1 /\
      times_of is_start_failed s = []
  | Rejected _ =>
      times_of is_creating_window s = [] /\
      length (times_of is_start_failed s) = 1 /\
      terminated s = true
  end.

(** app.quit() is not called while the application runs, and once at
    most. *)
Definition quit_inv (s : State) : Prop :=
  if terminated s then length (times_of is_app_quit s) <= 1
  else times_of is_app_quit s = [].

(** Every window in the trace was made with the options of createWindow
    and told at once to load the root page. *)
Fixpoint windows_loaded (h : Host) (tr : list (nat * Effect)) : Prop :=
  match tr with
  | [] => True
  | (t, NewBrowserWindow w opts) :: rest =>
      opts = window_options h /\
      (exists rest', rest = (t, LoadURL w root_url) :: rest') /\
      windows_loaded h rest
  | _ :: rest => windows_loaded h rest
  end.

(** The open windows [ws], the next window number [nw], the variable
    [mainWindow] and whether the application has ended: window numbers
    are not reused, [mainWindow] holds, if anything, the window made
    last, and that window is open; at most two windows are open, at most
    one when [mainWindow] is null, none when the application has
    ended. *)
Definition windows_view (ws : list nat) (nw : nat) (mw : option nat)
    (ended : bool) : Prop :=
  (forall w, In w ws -> w < nw) /\
  List.NoDup ws /\
  (forall w, mw = Some w -> In w ws /\ nw = S w) /\
  length ws <= 2 /\
  (mw = None -> length ws <= 1) /\
  (ended = true -> ws = [] /\ mw = None).

Definition windows_inv (s : State) : Prop :=
  windows_view (windows s) (nextWindow s) (mainWindow s) (terminated s).


(** Line 25: the stderr handler has logged a chunk. *)
Definition is_stderr_log (e : Effect) : bool :=
  match e with
  | ConsoleError [msg] => String.prefix "Flask Error: " msg
  | _ => false
  end.

Definition is_stderr (ev : Stimulus) : bool :=
  match ev with ProcStderr _ => true | _ => false end.

(** A state with the stderr lines taken out of its trace. *)
Definition strip (s : State) : State :=
  {| host := host s; flaskProcess := flaskProcess s;
     mainWindow := mainWindow s;
     promise := promise s; timers := timers s;
     windows := windows s; nextWindow := nextWindow s; now := now s;
     terminated := terminated s;
     trace := List.filter (fun te => negb (is_stderr_log (snd te)))
                (trace s) |}.

(** Lines 17 and 25: a chunk of the child's output has been logged. *)
Definition is_child_log (e : Effect) : bool :=
  match e with
  | ConsoleLog [msg] => String.prefix "Flask: " msg
  | ConsoleError [msg] => String.prefix "Flask Error: " msg
  | _ => false
  end.

(** What the two data handlers log for the events [evs], from time [t]
    on. *)
Fixpoint child_output (evs : list Stimulus) (t : nat)
  : list (nat * Effect) :=
  match evs with
  | [] => []
  | ProcStdout data :: rest =>
      (t, ConsoleLog ["Flask: " +:+ toString data]) :: child_output rest t
  | ProcStderr data :: rest =>
      (t, ConsoleError ["Flask Error: " +:+ toString data])
      :: child_output rest t
  | Elapse ms :: rest => child_output rest (t + ms)
  | _ :: rest => child_output rest t
  end.

Definition child_logs (s : State) : list (nat * Effect) :=
  List.filter (fun te => is_child_log (snd te)) (trace s).

(** * Properties *)

(** ** How the handlers act on the state *)

Ltac unfold_script :=
  unfold on_activate, on_window_all_closed, on_process_error,
    on_stderr_data, on_stdout_data, on_did_fail_load, reject, resolve,
    ready_catch, ready_resume, retry_load, createWindow, app_quit,
    quit_sequence, on_quit, setTimeout, console_log, console_error in *.

Ltac split_match :=
  repeat match goal with
         | |- context [match ?x with _ => _ end] => destruct x eqn:?
         end.

Lemma close_all_eq (s : State) :
  close_all s = set_windows [] (nextWindow s) (set_mainWindow
    (match windows s with [] => mainWindow s | _ :: _ => None end) s).
Proof.
  unfold close_all.
  assert (H : forall (l : list nat) (a : State),
             fold_left (fun acc _ => on_closed acc) l a =
             match l with [] => a | _ :: _ => on_closed a end).
  { induction l as [|x l IH]; intros a; simpl; [reflexivity|].
    rewrite IH. destruct l; reflexivity. }
  rewrite H. destruct s as [h fp mw pr ts ws nw t tm tr].
  destruct ws; reflexivity.
Qed.

Lemma run_app (a b : list Stimulus) (s : State) :
  run (a ++ b) s = run b (run a s).
Proof. revert s. induction a as [|ev a IH]; intros s; simpl; auto. Qed.

Lemma stimulus_terminated (ev : Stimulus) (s : State) :
  terminated s = true -> stimulus ev s = s.
Proof. intros H. unfold stimulus. rewrite H. reflexivity. Qed.

Lemma run_terminated (evs : list Stimulus) (s : State) :
  terminated s = true -> run evs s = s.
Proof.
  induction evs as [|ev evs IH]; intros H; simpl; [reflexivity|].
  rewrite stimulus_terminated by assumption. auto.
Qed.

(** The process never comes back once it has ended. *)
Lemma run_callback_terminated (c : Callback) (s : State) :
  terminated (run_callback c s) = terminated s.
Proof.
  destruct c; simpl; unfold_script; split_match; reflexivity.
Qed.

Lemma fire_terminated (fuel target : nat) (s : State) :
  terminated (fire fuel target s) = terminated s.
Proof.
  revert s. induction fuel as [|fuel IH]; intros s; simpl; [reflexivity|].
  destruct (terminated s) eqn:T; [assumption|].
  destruct (pop_earliest (timers s)) as [[t rest]|]; [|assumption].
  destruct (due t <=? target); [|assumption].
  rewrite IH, run_callback_terminated. simpl. assumption.
Qed.

Lemma elapse_terminated (ms : nat) (s : State) :
  terminated (elapse ms s) = terminated s.
Proof.
  unfold elapse.
  destruct (terminated (fire _ _ s)) eqn:T; rewrite fire_terminated in T.
  - rewrite fire_terminated. reflexivity.
  - simpl. rewrite fire_terminated. reflexivity.
Qed.

Lemma stimulus_stays_terminated (ev : Stimulus) (s : State) :
  terminated (stimulus ev s) = false -> terminated s = false.
Proof.
  destruct (terminated s) eqn:T; [|reflexivity].
  rewrite stimulus_terminated by assumption. congruence.
Qed.

Lemma run_stays_terminated (evs : list Stimulus) (s : State) :
  terminated (run evs s) = false -> terminated s = false.
Proof.
  revert s. induction evs as [|ev evs IH]; intros s H; simpl in *; auto.
  eapply stimulus_stays_terminated, IH, H.
Qed.

(** A property kept by every timer callback is kept by [fire]. *)
Lemma fire_keeps (P : State -> Prop) :
  (forall s t rest,
      P s -> terminated s = false ->
      pop_earliest (timers s) = Some (t, rest) ->
      P (run_callback (cb t)
           (emit (Fired (cb t))
              (set_now (Nat.max (now s) (due t)) (set_timers rest s))))) ->
  forall fuel target s, P s -> P (fire fuel target s).
Proof.
  intros Hstep fuel target.
  induction fuel as [|fuel IH]; intros s HP; simpl; [assumption|].
  destruct (terminated s) eqn:T; [assumption|].
  destruct (pop_earliest (timers s)) as [[t rest]|] eqn:E; [|assumption].
  destruct (due t <=? target); [|assumption].
  apply IH. apply Hstep; assumption.
Qed.

(** ** The trace only grows *)

Lemma times_of_emit (p : Effect -> bool) (e : Effect) (s : State) :
  times_of p (emit e s) = times_of p s ++ (if p e then [now s] else []).
Proof.
  unfold times_of, emit. simpl.
  rewrite List.filter_app, map_app. simpl. destruct (p e); reflexivity.
Qed.

Ltac script :=
  unfold stimulus, close_window; unfold_script;
  rewrite ?close_all_eq; unfold on_closed.

(** Case analysis on the tests a handler makes, for a running
    application ([Ht : terminated s = false]). *)
Ltac cases_with Ht :=
  repeat (simpl in *; rewrite ?Ht in *; try congruence;
          match goal with
          | |- context [match ?x with _ => _ end] => destruct x eqn:?
          end);
  simpl in *; rewrite ?Ht in *; try congruence.

Ltac cases :=
  repeat (simpl in *; try congruence;
          match goal with
          | |- context [match ?x with _ => _ end] => destruct x eqn:?
          end);
  simpl in *; try congruence.

Ltac trace_simpl :=
  unfold kills, effects, times_of in *; simpl in *;
  repeat (rewrite ?List.filter_app, ?List.map_app, ?List.length_app in *;
          simpl in * ).

(** ** The child handle *)

Lemma run_callback_same_child (c : Callback) (s : State) :
  same_child s (run_callback c s).
Proof.
  destruct c; simpl; unfold_script; split_match; split; reflexivity.
Qed.

Lemma elapse_same_child (ms : nat) (s : State) :
  same_child s (elapse ms s).
Proof.
  unfold elapse.
  assert (H : same_child s (fire (length (timers s)) (now s + ms) s)).
  { apply (fire_keeps (same_child s)); [|split; reflexivity].
    intros s0 t rest [H1 H2] _ _.
    destruct (run_callback_same_child (cb t)
                (emit (Fired (cb t))
                   (set_now (Nat.max (now s0) (due t))
                      (set_timers rest s0)))) as [H3 H4].
    split; [rewrite H3|rewrite H4]; simpl; assumption. }
  destruct (terminated _); [assumption|].
  destruct H as [H1 H2]. split; simpl; assumption.
Qed.

Lemma stimulus_same_child (ev : Stimulus) (s : State) :
  same_child s (stimulus ev s).
Proof.
  destruct ev; try (script; split_match; split; reflexivity).
  unfold stimulus. destruct (terminated s); [split; reflexivity|].
  apply elapse_same_child.
Qed.

Lemma run_same_child (evs : list Stimulus) (s : State) :
  same_child s (run evs s).
Proof.
  revert s. induction evs as [|ev evs IH]; intros s; simpl.
  - split; reflexivity.
  - destruct (IH (stimulus ev s)) as [H1 H2].
    destruct (stimulus_same_child ev s) as [H3 H4].
    split; congruence.
Qed.

Lemma run_flaskProcess (h : Host) (evs : list Stimulus) :
  flaskProcess (run evs (boot h)) = Some (flask_child h).
Proof.
  destruct (run_same_child evs (boot h)) as [H _]. rewrite H. reflexivity.
Qed.

(** ** Kills *)

Lemma run_callback_kills (c : Callback) (s : State) :
  kills (run_callback c s) = kills s.
Proof.
  destruct c; simpl; unfold_script; split_match; trace_simpl; lia.
Qed.

Lemma elapse_kills (ms : nat) (s : State) :
  kills (elapse ms s) = kills s.
Proof.
  unfold elapse.
  assert (H : kills (fire (length (timers s)) (now s + ms) s) = kills s).
  { apply (fire_keeps (fun s' => kills s' = kills s)); [|reflexivity].
    intros s0 t rest H _ _. rewrite run_callback_kills.
    trace_simpl. lia. }
  destruct (terminated _); [assumption|]. trace_simpl. assumption.
Qed.

(** One event of a running application either leaves it running, with no
    kill so far, or ends it; the last window closing ends it with two
    kills, every other way of ending with one. *)
Lemma stimulus_exit (ev : Stimulus) (s : State) :
  flaskProcess s <> None -> terminated s = false -> kills s = 0 ->
  (terminated (stimulus ev s) = false /\ kills (stimulus ev s) = 0) \/
  (terminated (stimulus ev s) = true /\
   kills (stimulus ev s) = match ev with UserCloses _ => 2 | _ => 1 end).
Proof.
  intros Hc Ht Hk.
  destruct ev;
    try (script; cases_with Ht; try congruence; trace_simpl;
         solve [left; split; [reflexivity || assumption|lia]
               |right; split; [reflexivity || assumption|lia]]).
  unfold stimulus. rewrite Ht. cbv iota. left.
  rewrite elapse_terminated, elapse_kills. auto.
Qed.

Lemma run_kill_inv (h : Host) (evs : list Stimulus) :
  kill_inv (run evs (boot h)).
Proof.
  induction evs as [|ev evs IH] using rev_ind.
  - reflexivity.
  - rewrite run_app. simpl. unfold kill_inv in *.
    destruct (terminated (run evs (boot h))) eqn:T.
    + rewrite stimulus_terminated by assumption. rewrite T. assumption.
    + destruct (stimulus_exit ev (run evs (boot h))) as [[H1 H2]|[H1 H2]];
        try assumption.
      * rewrite run_flaskProcess. discriminate.
      * rewrite H1. assumption.
      * rewrite H1, H2. destruct ev; lia.
Qed.

(** A running application exits at one event of the run. *)
Lemma exit_point (evs : list Stimulus) (s : State) :
  terminated s = false -> terminated (run evs s) = true ->
  exists pre ev post,
    evs = pre ++ ev :: post /\
    terminated (run pre s) = false /\
    terminated (stimulus ev (run pre s)) = true.
Proof.
  revert s. induction evs as [|ev evs IH]; intros s Hs He; simpl in *.
  - congruence.
  - destruct (terminated (stimulus ev s)) eqn:T.
    + exists [], ev, evs. simpl. auto.
    + destruct (IH _ T He) as (pre & ev' & post & -> & H1 & H2).
      exists (ev :: pre), ev', post. simpl. auto.
Qed.

(** ** What the script passes to the libraries *)

Lemma ok_emit (h : Host) (e : Effect) (s : State) :
  ok_effect h e -> ok_state h s -> ok_state h (emit e s).
Proof.
  intros He (H1 & H2 & H3). repeat split; try assumption.
  unfold effects in *. simpl. rewrite List.map_app.
  apply Forall_app. split; [assumption|]. simpl. auto.
Qed.

Lemma ok_set_mainWindow (h : Host) (v : option nat) (s : State) :
  ok_state h s -> ok_state h (set_mainWindow v s).
Proof. exact (fun H => H). Qed.

Lemma ok_set_promise (h : Host) (v : Promise) (s : State) :
  ok_state h s -> ok_state h (set_promise v s).
Proof. exact (fun H => H). Qed.

Lemma ok_set_timers (h : Host) (v : list Timer) (s : State) :
  ok_state h s -> ok_state h (set_timers v s).
Proof. exact (fun H => H). Qed.

Lemma ok_set_windows (h : Host) (v : list nat) (n : nat) (s : State) :
  ok_state h s -> ok_state h (set_windows v n s).
Proof. exact (fun H => H). Qed.

Lemma ok_set_now (h : Host) (v : nat) (s : State) :
  ok_state h s -> ok_state h (set_now v s).
Proof. exact (fun H => H). Qed.

Lemma ok_set_terminated (h : Host) (v : bool) (s : State) :
  ok_state h s -> ok_state h (set_terminated v s).
Proof. exact (fun H => H). Qed.

Ltac ok_steps :=
  repeat match goal with
         | H : ok_state ?h ?s |- ok_state ?h ?s => exact H
         | |- ok_state _ (emit _ _) =>
             apply ok_emit;
             [simpl; first [reflexivity | exact I | congruence | idtac]|]
         | |- ok_state _ (set_mainWindow _ _) => apply ok_set_mainWindow
         | |- ok_state _ (set_promise _ _) => apply ok_set_promise
         | |- ok_state _ (set_timers _ _) => apply ok_set_timers
         | |- ok_state _ (set_windows _ _ _) => apply ok_set_windows
         | |- ok_state _ (set_now _ _) => apply ok_set_now
         | |- ok_state _ (set_terminated _ _) => apply ok_set_terminated
         end.

Lemma run_callback_ok (h : Host) (c : Callback) (s : State) :
  ok_state h s -> ok_state h (run_callback c s).
Proof.
  intros H. destruct c; simpl; unfold_script; split_match;
    repeat first [assumption | apply ok_emit; [simpl; try reflexivity|]].
  all: destruct H as (H1 & _); simpl; try rewrite H1; auto.
Qed.

Lemma elapse_ok (h : Host) (ms : nat) (s : State) :
  ok_state h s -> ok_state h (elapse ms s).
Proof.
  intros H. unfold elapse.
  assert (H' : ok_state h (fire (length (timers s)) (now s + ms) s)).
  { apply (fire_keeps (ok_state h)); [|assumption].
    intros s0 t rest H0 _ _. apply run_callback_ok.
    apply ok_emit; [exact I|exact H0]. }
  destruct (terminated _); exact H'.
Qed.

Lemma stimulus_ok (h : Host) (ev : Stimulus) (s : State) :
  ok_state h s -> ok_state h (stimulus ev s).
Proof.
  intros H. pose proof H as (H1 & H2 & _).
  unfold stimulus. destruct (terminated s) eqn:Ht; [assumption|].
  destruct ev.
  8: { apply elapse_ok. assumption. }
  all: script; cases_with Ht; ok_steps; congruence.
Qed.

Lemma boot_ok (h : Host) : ok_state h (boot h).
Proof.
  repeat split. unfold effects. simpl.
  repeat constructor.
Qed.

Lemma run_ok (h : Host) (evs : list Stimulus) :
  ok_state h (run evs (boot h)).
Proof.
  induction evs as [|ev evs IH] using rev_ind.
  - apply boot_ok.
  - rewrite run_app. simpl. apply stimulus_ok. assumption.
Qed.

(** ** The child is spawned once *)

Lemma run_callback_spawns (c : Callback) (s : State) :
  times_of is_spawn (run_callback c s) = times_of is_spawn s.
Proof.
  destruct c; simpl; unfold_script; split_match; trace_simpl;
    rewrite ?app_nil_r; reflexivity.
Qed.

Lemma elapse_spawns (ms : nat) (s : State) :
  times_of is_spawn (elapse ms s) = times_of is_spawn s.
Proof.
  unfold elapse.
  assert (H : times_of is_spawn (fire (length (timers s)) (now s + ms) s)
              = times_of is_spawn s).
  { apply (fire_keeps
             (fun s' => times_of is_spawn s' = times_of is_spawn s));
      [|reflexivity].
    intros s0 t rest H _ _. rewrite run_callback_spawns, times_of_emit.
    simpl. rewrite app_nil_r. exact H. }
  destruct (terminated _); exact H.
Qed.

Lemma stimulus_spawns (ev : Stimulus) (s : State) :
  times_of is_spawn (stimulus ev s) = times_of is_spawn s.
Proof.
  destruct ev;
    try (script; split_match; trace_simpl; rewrite ?app_nil_r; reflexivity).
  unfold stimulus. destruct (terminated s); [reflexivity|].
  apply elapse_spawns.
Qed.

Lemma run_spawns (evs : list Stimulus) (s : State) :
  times_of is_spawn (run evs s) = times_of is_spawn s.
Proof.
  revert s. induction evs as [|ev evs IH]; intros s; simpl; [reflexivity|].
  rewrite IH. apply stimulus_spawns.
Qed.

(** ** The platform is never consulted *)

Lemma rehost_run_callback (p : string) (c : Callback) (s : State) :
  run_callback c (rehost p s) = rehost p (run_callback c s).
Proof.
  destruct c; simpl; unfold_script; simpl; split_match; reflexivity.
Qed.

Lemma rehost_fire (p : string) (fuel target : nat) (s : State) :
  fire fuel target (rehost p s) = rehost p (fire fuel target s).
Proof.
  revert s. induction fuel as [|fuel IH]; intros s; simpl; [reflexivity|].
  destruct (terminated s); [reflexivity|].
  destruct (pop_earliest (timers s)) as [[t rest]|]; [|reflexivity].
  destruct (due t <=? target); [|reflexivity].
  rewrite <- IH. f_equal. rewrite <- rehost_run_callback. reflexivity.
Qed.

Lemma rehost_stimulus (p : string) (ev : Stimulus) (s : State) :
  stimulus ev (rehost p s) = rehost p (stimulus ev s).
Proof.
  destruct ev;
    try (script; unfold is_open; cases; simplify_eq; reflexivity).
  unfold stimulus, elapse.
  change (terminated (rehost p s)) with (terminated s).
  change (timers (rehost p s)) with (timers s).
  change (now (rehost p s)) with (now s).
  destruct (terminated s); [reflexivity|].
  rewrite rehost_fire.
  change (terminated (rehost p ?x)) with (terminated x).
  destruct (terminated (fire _ _ s)); reflexivity.
Qed.

Lemma rehost_run (p : string) (evs : list Stimulus) (s : State) :
  run evs (rehost p s) = rehost p (run evs s).
Proof.
  revert s. induction evs as [|ev evs IH]; intros s; simpl; [reflexivity|].
  rewrite rehost_stimulus. apply IH.
Qed.

Lemma boot_with_platform (p : string) (h : Host) :
  boot (with_platform p h) = rehost p (boot h).
Proof. reflexivity. Qed.

(** ** Exit and the child process *)

Lemma kills_in (h : Host) (s : State) :
  ok_state h s -> 1 <= kills s -> In (Kill (flask_child h)) (effects s).
Proof.
  intros (_ & _ & Hok). unfold kills, times_of, effects in *.
  induction (trace s) as [|[t e] tr IH]; simpl in *; intros Hk; [lia|].
  inversion Hok as [|? ? He Hrest]; subst.
  destruct e; simpl in *; auto with arith.
  left. congruence.
Qed.

(** C1, as the code has it.  An execution that has ended has ended at
    one event of the run; the child was not killed before that event, and
    it has been killed twice when that event is the user closing the last
    window (once by the window-all-closed handler, once by the quit
    handler that app.quit() brings about), and once in every other case
    (the user quits, or startup is aborted). *)
Theorem exit_kill_count (h : Host) (evs : list Stimulus) :
  terminated (run evs (boot h)) = true ->
  exists pre ev post,
    evs = pre ++ ev :: post /\
    terminated (run pre (boot h)) = false /\
    kills (run pre (boot h)) = 0 /\
    run evs (boot h) = run (pre ++ [ev]) (boot h) /\
    kills (run evs (boot h)) =
      match ev with UserCloses _ => 2 | _ => 1 end.
Proof.
  intros He.
  destruct (exit_point evs (boot h) eq_refl He)
    as (pre & ev & post & -> & H1 & H2).
  exists pre, ev, post.
  assert (Hk : kills (run pre (boot h)) = 0).
  { pose proof (run_kill_inv h pre) as K. unfold kill_inv in K.
    rewrite H1 in K. exact K. }
  assert (Hr : run (pre ++ ev :: post) (boot h) = run (pre ++ [ev]) (boot h)).
  { rewrite !run_app. simpl. apply run_terminated. exact H2. }
  repeat split; try assumption.
  rewrite Hr, run_app. simpl.
  destruct (stimulus_exit ev (run pre (boot h))) as [[H3 _]|[_ H4]];
    try assumption; try congruence.
  rewrite run_flaskProcess. discriminate.
Qed.

Lemma exit_kill_count_witness :
  terminated (run [Elapse 3000; UserCloses 0] (boot example_host)) = true /\
  exists pre ev post,
    [Elapse 3000; UserCloses 0] = pre ++ ev :: post /\
    terminated (run pre (boot example_host)) = false /\
    kills (run pre (boot example_host)) = 0 /\
    run [Elapse 3000; UserCloses 0] (boot example_host)
      = run (pre ++ [ev]) (boot example_host) /\
    kills (run [Elapse 3000; UserCloses 0] (boot example_host)) =
      match ev with UserCloses _ => 2 | _ => 1 end.
Proof.
  assert (T : terminated
                (run [Elapse 3000; UserCloses 0] (boot example_host)) = true)
    by (vm_compute; reflexivity).
  split; [exact T|].
  exact (exit_kill_count example_host [Elapse 3000; UserCloses 0] T).
Defined.

(** C1 as stated fails: when the user closes the window the child is
    killed twice. *)
Lemma close_window_kills_twice :
  terminated run_close_window = true /\
  times_of is_kill run_close_window = [3000; 3000].
Proof. vm_compute. split; reflexivity. Qed.

(** C5.  Once the application has ended the child has been killed; the
    user closing the last window ends the application, and so does the
    user's quit command. *)
Theorem exit_kills_child (h : Host) (evs : list Stimulus) :
  (terminated (run evs (boot h)) = true ->
   In (Kill (flask_child h)) (effects (run evs (boot h)))) /\
  (forall w,
      terminated (run evs (boot h)) = false ->
      windows (run evs (boot h)) = [w] ->
      terminated (run (evs ++ [UserCloses w]) (boot h)) = true /\
      In (Kill (flask_child h))
        (effects (run (evs ++ [UserCloses w]) (boot h)))) /\
  (terminated (run evs (boot h)) = false ->
   terminated (run (evs ++ [UserQuits]) (boot h)) = true /\
   In (Kill (flask_child h)) (effects (run (evs ++ [UserQuits]) (boot h)))).
Proof.
  assert (Hend : forall l, terminated (run l (boot h)) = true ->
                 In (Kill (flask_child h)) (effects (run l (boot h)))).
  { intros l Hl. apply kills_in; [apply run_ok|].
    pose proof (run_kill_inv h l) as K. unfold kill_inv in K.
    rewrite Hl in K. lia. }
  split; [apply Hend|]. split.
  - intros w Ht Hw.
    assert (T : terminated (run (evs ++ [UserCloses w]) (boot h)) = true).
    { rewrite run_app. simpl. script. unfold is_open.
      rewrite Ht, Hw. simpl. rewrite Nat.eqb_refl. simpl.
      cases_with Ht; reflexivity. }
    split; [exact T|apply Hend, T].
  - intros Ht.
    assert (T : terminated (run (evs ++ [UserQuits]) (boot h)) = true).
    { rewrite run_app. simpl. script. rewrite Ht. reflexivity. }
    split; [exact T|apply Hend, T].
Qed.

Lemma exit_kills_child_witness :
  terminated (run [Elapse 3000] (boot example_host)) = false /\
  windows (run [Elapse 3000] (boot example_host)) = [0] /\
  terminated
    (run ([Elapse 3000] ++ [UserCloses 0]) (boot example_host)) = true /\
  In (Kill (flask_child example_host))
    (effects (run ([Elapse 3000] ++ [UserCloses 0]) (boot example_host))).
Proof.
  assert (T : terminated (run [Elapse 3000] (boot example_host)) = false)
    by (vm_compute; reflexivity).
  assert (W : windows (run [Elapse 3000] (boot example_host)) = [0])
    by (vm_compute; reflexivity).
  destruct (exit_kills_child example_host [Elapse 3000]) as (_ & H & _).
  split; [exact T|]. split; [exact W|]. exact (H 0 T W).
Defined.

(** ** The page that is loaded *)

(** C6.  Every call of loadURL in every run, whichever of the two call
    sites makes it (createWindow, from the ready handler or from the
    activate handler, or the retry closure), is given
    http://localhost:5000. *)
Theorem loads_only_root_url (h : Host) (evs : list Stimulus)
    (t w : nat) (url : string) :
  In (t, LoadURL w url) (trace (run evs (boot h))) ->
  url = "http://localhost:5000".
Proof.
  intros Hin. destruct (run_ok h evs) as (_ & _ & Hok).
  unfold effects in Hok. rewrite Forall_forall in Hok.
  apply (Hok (LoadURL w url)).
  apply list_elem_of_In, in_map_iff. exists (t, LoadURL w url). auto.
Qed.

Lemma loads_only_root_url_witness :
  In (4000, LoadURL 1 "http://localhost:5000")
    (trace (run [Activate; Elapse 3000; DidFailLoad 1; Elapse 1000]
              (boot example_host))) /\
  "http://localhost:5000" = "http://localhost:5000".
Proof.
  assert (H : In (4000, LoadURL 1 "http://localhost:5000")
                (trace (run [Activate; Elapse 3000; DidFailLoad 1;
                             Elapse 1000] (boot example_host)))).
  { vm_compute. do 10 right. left. reflexivity. }
  split; [exact H|].
  exact (loads_only_root_url example_host
           [Activate; Elapse 3000; DidFailLoad 1; Elapse 1000] 4000 1
           "http://localhost:5000" H).
Defined.

(** ** The child that is spawned *)

(** C7.  The ready handler spawns python3 app.py with the script's
    directory as working directory and with the inherited environment in
    which FLASK_ENV is set to production; no event spawns anything else
    or replaces the handle. *)
Theorem spawns_flask_child (h : Host) :
  trace (boot h) =
    [(0, ConsoleLog ["Starting Flask server..."]);
     (0, Spawn (flask_child h))] /\
  command (flask_child h) = "python3" /\
  args (flask_child h) = ["app.py"] /\
  cwd (options (flask_child h)) = dirname h /\
  env (options (flask_child h)) !! "FLASK_ENV" = Some "production" /\
  (forall k, k <> "FLASK_ENV" ->
     env (options (flask_child h)) !! k = process_env h !! k) /\
  (forall evs,
     times_of is_spawn (run evs (boot h)) = [0] /\
     flaskProcess (run evs (boot h)) = Some (flask_child h)).
Proof.
  repeat split.
  - simpl. apply lookup_insert_eq.
  - intros k Hk. simpl. apply lookup_insert_ne. congruence.
  - rewrite run_spawns. reflexivity.
  - apply run_flaskProcess.
Qed.

Lemma spawns_flask_child_witness :
  env (options (flask_child example_host)) !! "FLASK_ENV"
    = Some "production" /\
  env (options (flask_child example_host)) !! "PATH" = Some "/usr/bin".
Proof.
  destruct (spawns_flask_child example_host)
    as (_ & _ & _ & _ & H1 & H2 & _).
  split; [exact H1|].
  rewrite (H2 "PATH"); [reflexivity|discriminate].
Defined.

(** ** The last window *)

(** C10.  On a host of any platform [p], the user closing the last
    window makes the script call app.quit() and the application ends; the
    run is, event for event, the one of every other platform. *)
Theorem last_window_quits_everywhere (h : Host) (p : string)
    (evs : list Stimulus) (w : nat) :
  terminated (run evs (boot (with_platform p h))) = false ->
  windows (run evs (boot (with_platform p h))) = [w] ->
  terminated (run (evs ++ [UserCloses w]) (boot (with_platform p h))) = true /\
  trace (run (evs ++ [UserCloses w]) (boot (with_platform p h))) =
    trace (run evs (boot (with_platform p h))) ++
    [(now (run evs (boot (with_platform p h))), Kill (flask_child h));
     (now (run evs (boot (with_platform p h))), AppQuit);
     (now (run evs (boot (with_platform p h))), Kill (flask_child h))] /\
  trace (run (evs ++ [UserCloses w]) (boot (with_platform p h))) =
    trace (run (evs ++ [UserCloses w]) (boot h)).
Proof.
  intros Ht Hw. rewrite !boot_with_platform, !rehost_run in *.
  simpl in Ht, Hw. split; [|split]; [| |reflexivity]; simpl.
  all: rewrite run_app; simpl; script; unfold is_open.
  all: pose proof (run_flaskProcess h evs) as Hc.
  all: rewrite Ht, Hw; simpl; rewrite Nat.eqb_refl; simpl.
  all: rewrite Hc; simpl; rewrite ?Ht, ?Hc; simpl.
  - reflexivity.
  - rewrite <- !app_assoc. reflexivity.
Qed.

Lemma last_window_quits_everywhere_witness :
  terminated
    (run ([Elapse 3000] ++ [UserCloses 0])
       (boot (with_platform "win32" example_host))) = true.
Proof.
  assert (T : terminated
                (run [Elapse 3000]
                   (boot (with_platform "win32" example_host))) = false)
    by (vm_compute; reflexivity).
  assert (W : windows
                (run [Elapse 3000]
                   (boot (with_platform "win32" example_host))) = [0])
    by (vm_compute; reflexivity).
  destruct (last_window_quits_everywhere example_host "win32"
              [Elapse 3000] 0 T W) as [H _].
  exact H.
Defined.

(** ** The timer queue *)

Lemma pop_earliest_none (ts : list Timer) :
  pop_earliest ts = None -> ts = [].
Proof.
  destruct ts as [|t rest]; simpl; [reflexivity|].
  destruct (pop_earliest rest) as [[u r]|]; [|discriminate].
  destruct (due u <? due t); discriminate.
Qed.

Lemma pop_earliest_length (ts : list Timer) (t : Timer) (rest : list Timer) :
  pop_earliest ts = Some (t, rest) -> length ts = S (length rest).
Proof.
  revert t rest. induction ts as [|a ts IH]; intros t rest; simpl.
  - discriminate.
  - destruct (pop_earliest ts) as [[u r]|] eqn:E.
    + destruct (due u <? due a); intros [= <- <-]; simpl.
      * rewrite (IH u r eq_refl). reflexivity.
      * reflexivity.
    + intros [= <- <-]. apply pop_earliest_none in E. subst. reflexivity.
Qed.

Lemma pop_earliest_in (ts : list Timer) (t : Timer) (rest : list Timer) :
  pop_earliest ts = Some (t, rest) ->
  forall u, In u ts <-> u = t \/ In u rest.
Proof.
  revert t rest. induction ts as [|a ts IH]; intros t rest; simpl.
  - discriminate.
  - destruct (pop_earliest ts) as [[v r]|] eqn:E.
    + destruct (due v <? due a); intros [= <- <-] u; simpl.
      * rewrite (IH v r eq_refl u). intuition congruence.
      * intuition congruence.
    + intros [= <- <-] u. apply pop_earliest_none in E. subst. simpl.
      intuition congruence.
Qed.

Lemma pop_earliest_min (ts : list Timer) (t : Timer) (rest : list Timer) :
  pop_earliest ts = Some (t, rest) ->
  forall u, In u ts -> due t <= due u.
Proof.
  revert t rest. induction ts as [|a ts IH]; intros t rest; simpl.
  - discriminate.
  - destruct (pop_earliest ts) as [[v r]|] eqn:E.
    + destruct (due v <? due a) eqn:L; intros [= <- <-] u [<-|Hu].
      * apply Nat.ltb_lt in L. lia.
      * apply (IH v r eq_refl u Hu).
      * lia.
      * apply Nat.ltb_ge in L. pose proof (IH v r eq_refl u Hu). lia.
    + intros [= <- <-] u [<-|Hu]; [lia|].
      apply pop_earliest_none in E. subst. destruct Hu.
Qed.

(** Popping a timer leaves the others in their order. *)
Lemma pop_earliest_filter (p : Timer -> bool)
    (ts : list Timer) (t : Timer) (rest : list Timer) :
  pop_earliest ts = Some (t, rest) -> p t = false ->
  List.filter p ts = List.filter p rest.
Proof.
  revert t rest. induction ts as [|a ts IH]; intros t rest; simpl.
  - discriminate.
  - destruct (pop_earliest ts) as [[v r]|] eqn:E.
    + destruct (due v <? due a); intros [= <- <-] Hp; simpl.
      * rewrite (IH v r eq_refl Hp). reflexivity.
      * rewrite Hp. reflexivity.
    + intros [= <- <-] Hp. rewrite Hp.
      apply pop_earliest_none in E. subst. reflexivity.
Qed.

Lemma fire_keeps_due (target : nat) (P : State -> Prop) :
  (forall s t rest,
      P s -> terminated s = false ->
      pop_earliest (timers s) = Some (t, rest) -> due t <= target ->
      P (run_callback (cb t)
           (emit (Fired (cb t))
              (set_now (Nat.max (now s) (due t)) (set_timers rest s))))) ->
  forall fuel s, P s -> P (fire fuel target s).
Proof.
  intros Hstep fuel.
  induction fuel as [|fuel IH]; intros s HP; simpl; [assumption|].
  destruct (terminated s) eqn:T; [assumption|].
  destruct (pop_earliest (timers s)) as [[t rest]|] eqn:E; [|assumption].
  destruct (due t <=? target) eqn:L; [|assumption].
  apply IH. apply Hstep; try assumption. apply Nat.leb_le, L.
Qed.

(** ** After the window has opened *)

Lemma opened_emit (h : Host) (T : nat) (e : Effect) (s : State) :
  is_creating_window e = false ->
  Opened h T s -> Opened h T (emit e s).
Proof.
  intros He (H1 & H2 & H3 & pre & w & post & H4).
  repeat split; try assumption.
  - rewrite times_of_emit, He, app_nil_r. assumption.
  - exists pre, w, (post ++ [(now s, e)]). simpl. rewrite H4.
    rewrite <- !app_assoc. simpl. reflexivity.
Qed.

Lemma opened_set_mainWindow (h : Host) (T : nat) (v : option nat)
    (s : State) :
  Opened h T s -> Opened h T (set_mainWindow v s).
Proof. exact (fun H => H). Qed.

Lemma opened_set_timers (h : Host) (T : nat) (v : list Timer) (s : State) :
  Opened h T s -> Opened h T (set_timers v s).
Proof. exact (fun H => H). Qed.

Lemma opened_set_windows (h : Host) (T : nat) (v : list nat) (n : nat)
    (s : State) :
  Opened h T s -> Opened h T (set_windows v n s).
Proof. exact (fun H => H). Qed.

Lemma opened_set_now (h : Host) (T v : nat) (s : State) :
  Opened h T s -> Opened h T (set_now v s).
Proof. exact (fun H => H). Qed.

Lemma opened_set_terminated (h : Host) (T : nat) (v : bool) (s : State) :
  Opened h T s -> Opened h T (set_terminated v s).
Proof. exact (fun H => H). Qed.

Ltac opened_steps :=
  repeat match goal with
         | H : Opened ?h ?T ?s |- Opened ?h ?T ?s => exact H
         | |- Opened _ _ (emit _ _) => apply opened_emit; [reflexivity|]
         | |- Opened _ _ (set_mainWindow _ _) => apply opened_set_mainWindow
         | |- Opened _ _ (set_timers _ _) => apply opened_set_timers
         | |- Opened _ _ (set_windows _ _ _) => apply opened_set_windows
         | |- Opened _ _ (set_now _ _) => apply opened_set_now
         | |- Opened _ _ (set_terminated _ _) => apply opened_set_terminated
         end.

Lemma run_callback_opened (h : Host) (T : nat) (c : Callback) (s : State) :
  Opened h T s -> Opened h T (run_callback c s).
Proof.
  intros H. pose proof H as (_ & Hp & _).
  destruct c; simpl; unfold_script; rewrite ?Hp; cases; opened_steps.
Qed.

Lemma elapse_opened (h : Host) (T ms : nat) (s : State) :
  Opened h T s -> Opened h T (elapse ms s).
Proof.
  intros H. unfold elapse.
  assert (H' : Opened h T (fire (length (timers s)) (now s + ms) s)).
  { apply (fire_keeps (Opened h T)); [|assumption].
    intros s0 t rest H0 _ _. apply run_callback_opened.
    apply opened_emit; [reflexivity|].
    apply opened_set_now, opened_set_timers. assumption. }
  destruct (terminated _); [assumption|]. apply opened_set_now. assumption.
Qed.

Lemma stimulus_opened (h : Host) (T : nat) (ev : Stimulus) (s : State) :
  Opened h T s -> Opened h T (stimulus ev s).
Proof.
  intros H. pose proof H as (_ & Hp & _).
  unfold stimulus. destruct (terminated s) eqn:Ht; [assumption|].
  destruct ev.
  8: { apply elapse_opened. assumption. }
  all: script; unfold is_open; rewrite ?Hp; cases_with Ht; opened_steps.
Qed.

Lemma run_opened (h : Host) (T : nat) (evs : list Stimulus) (s : State) :
  Opened h T s -> Opened h T (run evs s).
Proof.
  revert s. induction evs as [|ev evs IH]; intros s H; simpl; [assumption|].
  apply IH, stimulus_opened, H.
Qed.

(** ** While the application waits *)

Lemma waiting_emit (h : Host) (D : nat) (e : Effect) (s : State) :
  is_creating_window e = false ->
  Waiting h D s -> Waiting h D (emit e s).
Proof.
  intros He (H1 & H2 & H3 & H4 & H5 & H6 & H7).
  repeat split; try assumption.
  rewrite times_of_emit, He, app_nil_r. assumption.
Qed.

Lemma waiting_set_mainWindow (h : Host) (D : nat) (v : option nat)
    (s : State) :
  Waiting h D s -> Waiting h D (set_mainWindow v s).
Proof. exact (fun H => H). Qed.

Lemma waiting_set_windows (h : Host) (D : nat) (v : list nat) (n : nat)
    (s : State) :
  Waiting h D s -> Waiting h D (set_windows v n s).
Proof. exact (fun H => H). Qed.

(** A timer other than a resolve timer is set. *)
Lemma waiting_set_retry (h : Host) (D delay : nat) (s : State) :
  Waiting h D s -> Waiting h D (setTimeout CbRetryLoad delay s).
Proof.
  intros (H1 & H2 & H3 & H4 & H5 & H6 & H7).
  assert (E : dues is_resolve (setTimeout CbRetryLoad delay s)
              = dues is_resolve s).
  { unfold dues, setTimeout. simpl. rewrite List.filter_app. simpl.
    rewrite app_nil_r. reflexivity. }
  repeat split; try assumption; rewrite E; assumption.
Qed.

(** A resolve timer is set. *)
Lemma waiting_set_resolve (h : Host) (D delay : nat) (s : State) :
  Waiting h D s ->
  Waiting h (Nat.min D (now s + delay)) (setTimeout CbResolve delay s).
Proof.
  intros (H1 & H2 & H3 & H4 & H5 & H6 & H7).
  assert (E : dues is_resolve (setTimeout CbResolve delay s)
              = dues is_resolve s ++ [now s + delay]).
  { unfold dues, setTimeout. simpl. rewrite List.filter_app, List.map_app.
    reflexivity. }
  repeat split; try assumption.
  - simpl. lia.
  - rewrite E. apply in_or_app.
    destruct (Nat.min_spec D (now s + delay)) as [[_ ->]|[_ ->]];
      [left; assumption|right; left; reflexivity].
  - intros d. rewrite E. intros Hd. apply in_app_or in Hd.
    destruct Hd as [Hd|[<-|[]]]; [apply H6 in Hd|]; lia.
Qed.

Lemma stimulus_waiting (h : Host) (D : nat) (ev : Stimulus) (s : State) :
  Waiting h D s ->
  (forall ms, ev <> Elapse ms) ->
  terminated (stimulus ev s) = true \/
  (now (stimulus ev s) = now s /\
   Waiting h (deadline_step ev (now s) D) (stimulus ev s)).
Proof.
  intros H Hev. pose proof H as (_ & Ht & Hp & _).
  destruct ev; try (exfalso; eapply Hev; reflexivity); simpl deadline_step.
  - (* stdout *)
    right. script. rewrite Ht.
    destruct (includes "Running on" (toString data)).
    + split; [reflexivity|].
      apply (waiting_set_resolve h D 1000
               (emit (ConsoleLog ["Flask: " +:+ toString data]) s)).
      apply waiting_emit; [reflexivity|assumption].
    + split; [reflexivity|]. apply waiting_emit; [reflexivity|assumption].
  - (* stderr *)
    right. script. rewrite Ht. split; [reflexivity|].
    apply waiting_emit; [reflexivity|assumption].
  - (* error *)
    left. script. rewrite Ht. cases_with Ht. all: reflexivity.
  - (* did-fail-load *)
    right. script. rewrite Ht. destruct (is_open w s).
    + split; [reflexivity|].
      apply (waiting_set_retry h D 1000
               (emit (ConsoleLog ["Failed to load, retrying..."]) s)).
      apply waiting_emit; [reflexivity|assumption].
    + split; [reflexivity|assumption].
  - (* the user closes a window *)
    script. rewrite Ht. destruct (is_open w s); [|right; split; auto].
    destruct (List.filter _ (windows s)) eqn:E.
    + left. cases_with Ht. all: reflexivity.
    + right. split; [reflexivity|].
      apply waiting_set_mainWindow, waiting_set_windows, H.
  - (* activate *)
    right. script. rewrite Ht. destruct (mainWindow s).
    + split; [reflexivity|assumption].
    + split; [reflexivity|].
      apply waiting_emit; [reflexivity|].
      apply waiting_set_mainWindow, waiting_set_windows.
      apply waiting_emit; [reflexivity|assumption].
  - (* the user quits *)
    left. script. rewrite Ht. reflexivity.
Qed.

Lemma dues_pop (p : Callback -> bool) (s : State)
    (t : Timer) (rest : list Timer) :
  pop_earliest (timers s) = Some (t, rest) -> p (cb t) = false ->
  map due (List.filter (fun u => p (cb u)) rest) = dues p s.
Proof.
  intros E Hp. unfold dues.
  rewrite (pop_earliest_filter (fun u => p (cb u)) _ _ _ E Hp). reflexivity.
Qed.

Lemma dues_in (p : Callback -> bool) (s : State) (t : Timer) :
  In t (timers s) -> p (cb t) = true -> In (due t) (dues p s).
Proof.
  intros Hin Hp. unfold dues. apply in_map, List.filter_In. auto.
Qed.

(** The retry closure runs while the application waits. *)
Lemma waiting_retry_fires (h : Host) (D : nat) (s : State)
    (t : Timer) (rest : list Timer) :
  Waiting h D s ->
  pop_earliest (timers s) = Some (t, rest) -> cb t = CbRetryLoad ->
  due t <= D ->
  Waiting h D
    (run_callback (cb t)
       (emit (Fired (cb t))
          (set_now (Nat.max (now s) (due t)) (set_timers rest s)))).
Proof.
  intros (H1 & H2 & H3 & H4 & H5 & H6 & H7) E Hc Hd.
  assert (Hs : Waiting h D
                 (emit (Fired (cb t))
                    (set_now (Nat.max (now s) (due t))
                       (set_timers rest s)))).
  { apply waiting_emit; [rewrite Hc; reflexivity|].
    assert (Hdues : dues is_resolve
                      (set_now (Nat.max (now s) (due t)) (set_timers rest s))
                    = dues is_resolve s).
    { apply (dues_pop is_resolve s t rest E). rewrite Hc. reflexivity. }
    repeat split; try assumption; try (rewrite Hdues; assumption).
    simpl. lia. }
  rewrite Hc in *. simpl. unfold retry_load.
  destruct (mainWindow _); (apply waiting_emit; [reflexivity|exact Hs]).
Qed.

(** The earliest resolve timer is not yet due: the application goes on
    waiting. *)
Lemma fire_waiting (h : Host) (D fuel target : nat) (s : State) :
  target < D -> Waiting h D s -> Waiting h D (fire fuel target s).
Proof.
  intros Hlt. apply (fire_keeps_due target (Waiting h D)).
  intros s0 t rest H _ E Hdue.
  destruct (cb t) eqn:Hc.
  - exfalso. destruct H as (_ & _ & _ & _ & _ & H6 & _).
    assert (Hin : In (due t) (dues is_resolve s0)).
    { apply dues_in; [|rewrite Hc; reflexivity].
      apply (pop_earliest_in _ _ _ E). left. reflexivity. }
    apply H6 in Hin. lia.
  - rewrite <- Hc. apply waiting_retry_fires; try assumption. lia.
Qed.

(** The resolve timer fires: the promise is fulfilled, the ready handler
    goes on and opens the window. *)
Lemma waiting_resolve_fires (h : Host) (D : nat) (s : State)
    (t : Timer) (rest : list Timer) :
  Waiting h D s ->
  pop_earliest (timers s) = Some (t, rest) -> cb t = CbResolve ->
  due t <= D ->
  Opened h D
    (run_callback (cb t)
       (emit (Fired (cb t))
          (set_now (Nat.max (now s) (due t)) (set_timers rest s)))).
Proof.
  intros (H1 & H2 & H3 & H4 & H5 & H6 & H7) E Hc Hd.
  assert (Hin : In (due t) (dues is_resolve s)).
  { apply dues_in; [|rewrite Hc; reflexivity].
    apply (pop_earliest_in _ _ _ E). left. reflexivity. }
  apply H6 in Hin.
  assert (Hmax : Nat.max (now s) (due t) = D) by lia.
  rewrite Hc, Hmax. simpl. unfold_script. simpl. rewrite H3.
  repeat split; simpl; try assumption.
  - trace_simpl. unfold times_of in H7. rewrite H7. reflexivity.
  - exists (trace s), (nextWindow s), []. rewrite H1.
    rewrite <- !app_assoc. reflexivity.
Qed.

Lemma run_callback_timers (c : Callback) (s : State) :
  timers (run_callback c s) = timers s.
Proof. destruct c; simpl; unfold_script; cases; reflexivity. Qed.

(** The earliest resolve timer is due: the window opens, at the time the
    timer is due. *)
Lemma fire_opens (h : Host) (D target fuel : nat) (s : State) :
  D <= target -> Waiting h D s -> length (timers s) <= fuel ->
  Opened h D (fire fuel target s) /\ terminated (fire fuel target s) = false.
Proof.
  intros Hle. revert s.
  induction fuel as [|fuel IH]; intros s H Hlen.
  - exfalso. destruct H as (_ & _ & _ & _ & H5 & _).
    unfold dues in H5. destruct (timers s); [destruct H5|simpl in Hlen; lia].
  - pose proof H as (H1 & H2 & H3 & H4 & H5 & H6 & H7).
    simpl. rewrite H2.
    destruct (pop_earliest (timers s)) as [[t rest]|] eqn:E.
    2:{ exfalso. apply pop_earliest_none in E. unfold dues in H5.
        rewrite E in H5. destruct H5. }
    assert (Hdue : due t <= D).
    { unfold dues in H5. apply in_map_iff in H5.
      destruct H5 as (u & <- & Hu). apply List.filter_In in Hu.
      apply (pop_earliest_min _ _ _ E), Hu. }
    assert (L : (due t <=? target) = true) by (apply Nat.leb_le; lia).
    rewrite L.
    destruct (cb t) eqn:Hc.
    + rewrite <- Hc.
      pose proof (waiting_resolve_fires h D s t rest H E Hc Hdue) as Ho.
      split.
      * apply (fire_keeps (Opened h D)); [|assumption].
        intros s0 t0 rest0 H0 _ _. apply run_callback_opened.
        apply opened_emit; [reflexivity|].
        apply opened_set_now, opened_set_timers. assumption.
      * rewrite fire_terminated, run_callback_terminated. simpl. assumption.
    + rewrite <- Hc. apply IH.
      * apply waiting_retry_fires; assumption.
      * rewrite run_callback_timers. simpl.
        apply pop_earliest_length in E. lia.
Qed.

(** ** The clock *)

Lemma stimulus_now (ev : Stimulus) (s : State) :
  terminated (stimulus ev s) = false ->
  now (stimulus ev s) = clock [ev] (now s).
Proof.
  intros H. pose proof (stimulus_stays_terminated _ _ H) as Ht.
  destruct ev; simpl.
  1-7: revert H; script; unfold is_open; cases_with Ht; reflexivity.
  revert H. unfold stimulus, elapse. rewrite Ht.
  destruct (terminated (fire _ _ s)) eqn:F; intros H;
    [congruence|reflexivity].
Qed.


Lemma clock_cons (ev : Stimulus) (evs : list Stimulus) (t : nat) :
  clock (ev :: evs) t = clock evs (clock [ev] t).
Proof. destruct ev; reflexivity. Qed.

Lemma clock_ge (evs : list Stimulus) (t : nat) : t <= clock evs t.
Proof.
  revert t. induction evs as [|ev evs IH]; intros t; simpl; [lia|].
  destruct ev; try apply IH. specialize (IH (t + ms)). lia.
Qed.

Lemma run_now (evs : list Stimulus) (s : State) :
  terminated (run evs s) = false ->
  now (run evs s) = clock evs (now s).
Proof.
  revert s. induction evs as [|ev evs IH]; intros s H; [reflexivity|].
  rewrite clock_cons. simpl in *. rewrite (IH _ H).
  rewrite stimulus_now; [reflexivity|].
  apply (run_stays_terminated _ _ H).
Qed.

(** ** From waiting to the open window *)

Lemma elapse_waiting (h : Host) (D ms : nat) (s : State) :
  Waiting h D s ->
  terminated (elapse ms s) = false /\
  if now s + ms <? D then Waiting h D (elapse ms s)
  else Opened h D (elapse ms s).
Proof.
  intros H. pose proof H as (H1 & H2 & H3 & H4 & H5 & H6 & H7).
  split; [rewrite elapse_terminated; assumption|].
  unfold elapse. rewrite fire_terminated, H2.
  destruct (now s + ms <? D) eqn:L.
  - apply Nat.ltb_lt in L.
    pose proof (fire_waiting h D (length (timers s)) (now s + ms) s L H)
      as (G1 & G2 & G3 & G4 & G5 & G6 & G7).
    repeat split; try assumption. simpl. lia.
  - apply Nat.ltb_ge in L.
    destruct (fire_opens h D (now s + ms) (length (timers s)) s L H)
      as [Ho _]; [lia|].
    apply opened_set_now. assumption.
Qed.

Lemma deadline_past (evs : list Stimulus) (t D : nat) :
  D <= t -> deadline evs t D = D.
Proof.
  revert t. induction evs as [|ev evs IH]; intros t H; simpl; [reflexivity|].
  destruct ev; try (apply IH; lia).
  destruct (includes _ _); [|apply IH; lia].
  replace (Nat.min D (t + 1000)) with D by lia. apply IH. lia.
Qed.

Lemma deadline_cons (ev : Stimulus) (evs : list Stimulus) (t D : nat) :
  (forall ms, ev <> Elapse ms) ->
  deadline (ev :: evs) t D = deadline evs t (deadline_step ev t D).
Proof.
  intros H. destruct ev; try reflexivity. exfalso. apply (H ms eq_refl).
Qed.

(** A run of a waiting application that has not ended: it still waits
    while the clock is before the deadline, and has opened the window
    at the deadline once the clock has reached it. *)
Lemma run_phase (h : Host) (evs : list Stimulus) :
  forall s D,
    Waiting h D s -> now s < D ->
    terminated (run evs s) = false ->
    if clock evs (now s) <? deadline evs (now s) D
    then Waiting h (deadline evs (now s) D) (run evs s)
    else Opened h (deadline evs (now s) D) (run evs s).
Proof.
  induction evs as [|ev evs IH]; intros s D H Hlt Hrun.
  - simpl. apply Nat.ltb_lt in Hlt. rewrite Hlt. assumption.
  - pose proof (run_stays_terminated evs _ Hrun) as Hs1.
    pose proof (stimulus_now ev s Hs1) as Hnow.
    assert (Hne : (forall ms, ev <> Elapse ms) ->
                  if clock (ev :: evs) (now s)
                     <? deadline (ev :: evs) (now s) D
                  then Waiting h (deadline (ev :: evs) (now s) D)
                         (run (ev :: evs) s)
                  else Opened h (deadline (ev :: evs) (now s) D)
                         (run (ev :: evs) s)).
    { intros Hne. rewrite clock_cons, deadline_cons by assumption.
      rewrite <- Hnow.
      destruct (stimulus_waiting h D ev s H Hne) as [Hx|[Hn Hw]];
        [congruence|].
      set (D1 := deadline_step ev (now s) D) in *.
      rewrite <- Hn. apply (IH (stimulus ev s) D1 Hw); [|exact Hrun].
      rewrite Hn. unfold D1, deadline_step.
      destruct ev; try assumption. destruct (includes _ _); lia. }
    destruct ev; try (apply Hne; discriminate).
    simpl in *.
    destruct (elapse_waiting h D ms s H) as [_ He].
    unfold stimulus in *. destruct H as (_ & Ht & _).
    rewrite Ht in *. rewrite <- Hnow.
    destruct (now s + ms <? D) eqn:L.
    + apply Nat.ltb_lt in L. apply IH; try assumption. lia.
    + apply Nat.ltb_ge in L.
      rewrite deadline_past by lia.
      pose proof (clock_ge evs (now (elapse ms s))) as Hc.
      assert (Hf : (clock evs (now (elapse ms s)) <? D) = false)
        by (apply Nat.ltb_ge; lia).
      rewrite Hf. apply run_opened. assumption.
Qed.

Lemma first_ready_ge (evs : list Stimulus) (t r : nat) :
  first_ready evs t = Some r -> t <= r.
Proof.
  revert t. induction evs as [|ev evs IH]; intros t; simpl; [discriminate|].
  destruct ev; try apply IH.
  - destruct (includes _ _); [intros [= <-]; lia|apply IH].
  - intros H. apply IH in H. lia.
Qed.

Lemma deadline_first_ready (evs : list Stimulus) (t D : nat) :
  deadline evs t D =
  match first_ready evs t with
  | Some r => Nat.min D (r + 1000)
  | None => D
  end.
Proof.
  revert t D. induction evs as [|ev evs IH]; intros t D; simpl;
    [reflexivity|].
  destruct ev; try apply IH.
  destruct (includes _ _); [|apply IH].
  rewrite IH. destruct (first_ready evs t) as [r|] eqn:E; [|reflexivity].
  apply first_ready_ge in E. lia.
Qed.

Lemma open_time_deadline (evs : list Stimulus) :
  open_time evs = deadline evs 0 3000.
Proof.
  rewrite deadline_first_ready. unfold open_time.
  destruct (first_ready evs 0); lia.
Qed.


Lemma boot_waiting (h : Host) : Waiting h 3000 (boot h).
Proof.
  repeat split; simpl; auto with arith.
  intros d [<-|[]]. lia.
Qed.

(** The two phases of a run that has not ended. *)
Lemma run_boot_phase (h : Host) (evs : list Stimulus) :
  terminated (run evs (boot h)) = false ->
  if clock evs 0 <? open_time evs
  then Waiting h (open_time evs) (run evs (boot h))
  else Opened h (open_time evs) (run evs (boot h)).
Proof.
  intros H. rewrite open_time_deadline.
  apply (run_phase h evs (boot h) 3000 (boot_waiting h)); [|assumption].
  simpl. lia.
Qed.

(** ** C3: when the window opens *)



(** ** C9 and C4: an error of the child *)

(** C9.  When the child's error event comes after the promise has been
    resolved (at [open_time], which is three seconds after the ready
    event at the latest), reject does nothing: the handler logs the
    error and that is all; the application goes on running with the
    window it opened at [open_time]. *)
Theorem late_error_ignored (h : Host) (evs : list Stimulus) (e : string) :
  terminated (run evs (boot h)) = false ->
  open_time evs <= clock evs 0 ->
  terminated (run (evs ++ [ProcError e]) (boot h)) = false /\
  trace (run (evs ++ [ProcError e]) (boot h)) =
    trace (run evs (boot h)) ++
    [(clock evs 0, ConsoleError ["Failed to start Flask: " +:+ e])] /\
  promise (run (evs ++ [ProcError e]) (boot h)) = Fulfilled /\
  windows (run (evs ++ [ProcError e]) (boot h)) = windows (run evs (boot h)) /\
  times_of is_creating_window (run (evs ++ [ProcError e]) (boot h))
  = [open_time evs].
Proof.
  intros Ht Hlate.
  pose proof (run_boot_phase h evs Ht) as P.
  assert (E : (clock evs 0 <? open_time evs) = false)
    by (apply Nat.ltb_ge; assumption).
  rewrite E in P. destruct P as (_ & Hp & Hc & _).
  pose proof (run_now evs (boot h) Ht) as Hn. simpl in Hn.
  rewrite run_app. simpl. script. rewrite Ht. simpl. rewrite Hp.
  repeat split; try assumption.
  - simpl. rewrite Hn. reflexivity.
  - rewrite times_of_emit. simpl. rewrite app_nil_r. assumption.
Qed.

Lemma late_error_ignored_witness :
  terminated (run ([Elapse 3000] ++ [ProcError "Error: spawn python3 ENOENT"])
                (boot example_host)) = false /\
  times_of is_creating_window
    (run ([Elapse 3000] ++ [ProcError "Error: spawn python3 ENOENT"])
       (boot example_host))
  = [open_time [Elapse 3000]].
Proof.
  assert (T : terminated (run [Elapse 3000] (boot example_host)) = false)
    by (vm_compute; reflexivity).
  assert (L : open_time [Elapse 3000] <= clock [Elapse 3000] 0)
    by (vm_compute; lia).
  destruct (late_error_ignored example_host [Elapse 3000]
              "Error: spawn python3 ENOENT" T L) as (H1 & _ & _ & _ & H2).
  split; [exact H1|exact H2].
Defined.


Ltac no_window H :=
  let Hp := fresh "Hp" in
  unfold no_window_yet in *; intros Hp; simpl in Hp;
  first [ discriminate Hp
        | specialize (H Hp); trace_simpl; rewrite H; reflexivity ].

Lemma run_callback_no_window (c : Callback) (s : State) :
  no_window_yet s -> no_window_yet (run_callback c s).
Proof.
  intros H. destruct c; simpl; unfold_script; cases; no_window H.
Qed.

Lemma elapse_no_window (ms : nat) (s : State) :
  no_window_yet s -> no_window_yet (elapse ms s).
Proof.
  intros H. unfold elapse.
  assert (H' : no_window_yet (fire (length (timers s)) (now s + ms) s)).
  { apply (fire_keeps no_window_yet); [|assumption].
    intros s0 t rest H0 _ _. apply run_callback_no_window.
    no_window H0. }
  destruct (terminated _); [assumption|]. exact H'.
Qed.

Lemma stimulus_no_window (ev : Stimulus) (s : State) :
  ev <> Activate -> no_window_yet s -> no_window_yet (stimulus ev s).
Proof.
  intros Hev H. unfold stimulus.
  destruct (terminated s) eqn:Ht; [assumption|].
  destruct ev; try congruence.
  7: { apply elapse_no_window. assumption. }
  all: script; unfold is_open; cases_with Ht; no_window H.
Qed.

Lemma run_no_window (evs : list Stimulus) (s : State) :
  Forall (fun ev => ev <> Activate) evs ->
  no_window_yet s -> no_window_yet (run evs s).
Proof.
  revert s. induction evs as [|ev evs IH]; intros s Hevs H; simpl;
    [assumption|].
  inversion Hevs; subst. apply IH; [assumption|].
  apply stimulus_no_window; assumption.
Qed.

(** The child's error event while the promise is pending. *)
Lemma error_while_pending (e : string) (s : State) (c : ChildProcess) :
  terminated s = false -> promise s = Pending -> flaskProcess s = Some c ->
  terminated (stimulus (ProcError e) s) = true /\
  trace (stimulus (ProcError e) s) =
    trace s ++
    [(now s, ConsoleError ["Failed to start Flask: " +:+ e]);
     (now s, ConsoleError ["Failed to start application:"; e]);
     (now s, AppQuit);
     (now s, Kill c)] /\
  windows (stimulus (ProcError e) s) = [].
Proof.
  intros Ht Hp Hf. script. rewrite Ht. simpl. rewrite Hp. simpl.
  rewrite Ht. simpl. rewrite Hf. simpl.
  repeat split. rewrite <- !app_assoc. reflexivity.
Qed.

(** The child's error event comes while the application still waits
    (before [open_time]): the promise is rejected, the ready handler goes
    to its catch block and calls app.quit(), and the application ends:
    the quit handler kills the child, no window is left open, line 74 is
    never reached, and nothing that follows is seen by the script.  If
    the application was not activated before the error no window was
    ever created. *)
Lemma early_error_aborts (h : Host) (evs : list Stimulus) (e : string)
    (more : list Stimulus) :
  terminated (run evs (boot h)) = false ->
  clock evs 0 < open_time evs ->
  terminated (run (evs ++ ProcError e :: more) (boot h)) = true /\
  trace (run (evs ++ ProcError e :: more) (boot h)) =
    trace (run evs (boot h)) ++
    [(clock evs 0, ConsoleError ["Failed to start Flask: " +:+ e]);
     (clock evs 0, ConsoleError ["Failed to start application:"; e]);
     (clock evs 0, AppQuit);
     (clock evs 0, Kill (flask_child h))] /\
  windows (run (evs ++ ProcError e :: more) (boot h)) = [] /\
  times_of is_creating_window (run (evs ++ ProcError e :: more) (boot h))
  = [] /\
  (Forall (fun ev => ev <> Activate) evs ->
   times_of is_new_window (run (evs ++ ProcError e :: more) (boot h)) = []).
Proof.
  intros Ht Hearly.
  pose proof (run_boot_phase h evs Ht) as P.
  assert (E : (clock evs 0 <? open_time evs) = true)
    by (apply Nat.ltb_lt; assumption).
  rewrite E in P. destruct P as (_ & _ & Hp & _ & _ & _ & Hc).
  pose proof (run_now evs (boot h) Ht) as Hn. simpl in Hn.
  destruct (error_while_pending e (run evs (boot h)) (flask_child h)
              Ht Hp (run_flaskProcess h evs)) as (Hterm & Htrace & Hwin).
  rewrite Hn in Htrace.
  rewrite run_app. simpl.
  rewrite run_terminated by exact Hterm.
  split; [exact Hterm|]. split; [exact Htrace|]. split; [exact Hwin|].
  unfold times_of in *. rewrite Htrace, !List.filter_app, !List.map_app.
  split.
  - rewrite Hc. reflexivity.
  - intros Hevs.
    pose proof (run_no_window evs (boot h) Hevs (fun _ => eq_refl) Hp) as Hw.
    unfold times_of in Hw. rewrite Hw. reflexivity.
Qed.

(** C4.  The spawn of the child fails.  Node emits the error event of
    a failed spawn on the tick after spawn(), before any timer can fire
    and before any other event reaches the script, so the error is the
    first event after ready.  The error handler logs it and rejects the
    promise; the ready handler goes to its catch block, logs and calls
    app.quit(); the quit handler kills the handle and the application
    ends.  That is the whole trace, whatever is sent afterwards: no
    window is created, none is open, and line 74 is never reached. *)
Theorem spawn_error_aborts (h : Host) (e : string) (more : list Stimulus) :
  terminated (run (ProcError e :: more) (boot h)) = true /\
  trace (run (ProcError e :: more) (boot h)) =
    [(0, ConsoleLog ["Starting Flask server..."]);
     (0, Spawn (flask_child h));
     (0, ConsoleError ["Failed to start Flask: " +:+ e]);
     (0, ConsoleError ["Failed to start application:"; e]);
     (0, AppQuit);
     (0, Kill (flask_child h))] /\
  times_of is_new_window (run (ProcError e :: more) (boot h)) = [] /\
  times_of is_creating_window (run (ProcError e :: more) (boot h)) = [] /\
  windows (run (ProcError e :: more) (boot h)) = [].
Proof.
  assert (L : clock [] 0 < open_time []) by (unfold open_time; simpl; lia).
  destruct (early_error_aborts h [] e more eq_refl L)
    as (H1 & H2 & H3 & H4 & H5).
  change (run ([] ++ ProcError e :: more) (boot h))
    with (run (ProcError e :: more) (boot h)) in *.
  repeat split; try assumption.
  apply H5. constructor.
Qed.

(** ** The trace is never rewritten *)

Ltac grows :=
  solve [ exists []; rewrite app_nil_r; reflexivity
        | eexists; simpl; rewrite <- ?app_assoc; reflexivity ].

Lemma run_callback_grows (c : Callback) (s : State) :
  exists post, trace (run_callback c s) = trace s ++ post.
Proof. destruct c; simpl; unfold_script; cases; grows. Qed.

Lemma fire_grows (fuel target : nat) (s : State) :
  exists post, trace (fire fuel target s) = trace s ++ post.
Proof.
  apply (fire_keeps (fun s' => exists post, trace s' = trace s ++ post)).
  - intros s0 t rest [post H] _ _.
    destruct (run_callback_grows (cb t)
                (emit (Fired (cb t))
                   (set_now (Nat.max (now s0) (due t))
                      (set_timers rest s0)))) as [post' H'].
    rewrite H'. simpl. rewrite H. eexists. rewrite <- !app_assoc.
    reflexivity.
  - exists []. rewrite app_nil_r. reflexivity.
Qed.

Lemma stimulus_grows (ev : Stimulus) (s : State) :
  exists post, trace (stimulus ev s) = trace s ++ post.
Proof.
  unfold stimulus. destruct (terminated s) eqn:Ht; [grows|].
  destruct ev.
  8: { unfold elapse.
       destruct (fire_grows (length (timers s)) (now s + ms) s) as [p H].
       destruct (terminated (fire _ _ _)); exists p; exact H. }
  all: script; unfold is_open; cases_with Ht; grows.
Qed.

Lemma run_grows (evs : list Stimulus) (s : State) :
  exists post, trace (run evs s) = trace s ++ post.
Proof.
  revert s. induction evs as [|ev evs IH]; intros s; simpl; [grows|].
  destruct (IH (stimulus ev s)) as [p1 H1].
  destruct (stimulus_grows ev s) as [p2 H2].
  rewrite H1, H2. eexists. rewrite <- app_assoc. reflexivity.
Qed.

(** ** Timers fire when they are due *)

(** After [fire], with a round for every pending timer, no timer due up
    to the target is left. *)
Lemma fire_exhaustive (fuel target : nat) (s : State) :
  terminated s = false -> length (timers s) <= fuel ->
  forall t, In t (timers (fire fuel target s)) -> target < due t.
Proof.
  revert s. induction fuel as [|fuel IH]; intros s Ht Hlen t; simpl.
  - destruct (timers s); [intros []|simpl in Hlen; lia].
  - rewrite Ht.
    destruct (pop_earliest (timers s)) as [[u rest]|] eqn:E.
    + destruct (due u <=? target) eqn:L.
      * apply IH.
        -- rewrite run_callback_terminated. exact Ht.
        -- rewrite run_callback_timers. simpl.
           apply pop_earliest_length in E. lia.
      * intros Hin. apply Nat.leb_gt in L.
        pose proof (pop_earliest_min _ _ _ E t Hin). lia.
    + apply pop_earliest_none in E. rewrite E. intros [].
Qed.


Lemma elapse_settled (ms : nat) (s : State) :
  settled s -> settled (elapse ms s).
Proof.
  intros H. unfold elapse.
  destruct (terminated s) eqn:Ht.
  - assert (E : fire (length (timers s)) (now s + ms) s = s).
    { destruct (length (timers s)); simpl; rewrite ?Ht; reflexivity. }
    rewrite E, Ht. assumption.
  - rewrite fire_terminated, Ht. intros t Hin. simpl in *.
    apply (fire_exhaustive (length (timers s)) (now s + ms) s Ht
             (le_n _) t Hin).
Qed.

Lemma stimulus_settled (ev : Stimulus) (s : State) :
  settled s -> settled (stimulus ev s).
Proof.
  intros H. unfold stimulus.
  destruct (terminated s) eqn:Ht; [assumption|].
  destruct ev.
  8: { apply elapse_settled. assumption. }
  all: script; unfold is_open; cases_with Ht; unfold settled in *; simpl.
  all: try assumption.
  all: intros t Hin; apply in_app_or in Hin; destruct Hin as [Hin|[<-|[]]];
    [apply H; assumption|simpl; lia].
Qed.

Lemma run_settled (h : Host) (evs : list Stimulus) :
  settled (run evs (boot h)).
Proof.
  induction evs as [|ev evs IH] using rev_ind.
  - intros t [<-|[]]. simpl. lia.
  - rewrite run_app. simpl. apply stimulus_settled. assumption.
Qed.

(** ** The promise is settled once *)

Lemma run_callback_promise_kept (c : Callback) (s : State) :
  promise s <> Pending -> promise (run_callback c s) = promise s.
Proof.
  intros H. destruct c; simpl; unfold_script; cases; reflexivity.
Qed.

Lemma elapse_promise_kept (ms : nat) (s : State) :
  promise s <> Pending -> promise (elapse ms s) = promise s.
Proof.
  intros H. unfold elapse.
  assert (H' : promise (fire (length (timers s)) (now s + ms) s)
               = promise s).
  { apply (fire_keeps (fun s' => promise s' = promise s)); [|reflexivity].
    intros s0 t rest H0 _ _. rewrite run_callback_promise_kept; simpl;
      congruence. }
  destruct (terminated (fire _ _ _)); exact H'.
Qed.

Lemma stimulus_promise_kept (ev : Stimulus) (s : State) :
  promise s <> Pending -> promise (stimulus ev s) = promise s.
Proof.
  intros H. unfold stimulus.
  destruct (terminated s) eqn:Ht; [reflexivity|].
  destruct ev.
  8: { apply elapse_promise_kept. assumption. }
  all: script; unfold is_open; cases_with Ht; reflexivity.
Qed.

(** ** One window while the application waits *)

Ltac single_window_done :=
  solve [ left; split; reflexivity
        | right; eexists; split; reflexivity ].

Lemma run_callback_single_window (c : Callback) (s : State) :
  single_window s -> single_window (run_callback c s).
Proof.
  intros H Hp. destruct (promise s) eqn:Hs.
  - revert Hp. destruct c; simpl; unfold_script; rewrite ?Hs; simpl;
      [discriminate|].
    intros _. specialize (H Hs).
    destruct (mainWindow s) eqn:Hm; simpl; rewrite ?Hm; exact H.
  - rewrite run_callback_promise_kept in Hp; congruence.
  - rewrite run_callback_promise_kept in Hp; congruence.
Qed.

Lemma elapse_single_window (ms : nat) (s : State) :
  single_window s -> single_window (elapse ms s).
Proof.
  intros H. unfold elapse.
  assert (H' : single_window (fire (length (timers s)) (now s + ms) s)).
  { apply (fire_keeps single_window); [|assumption].
    intros s0 t rest H0 _ _. apply run_callback_single_window.
    exact H0. }
  destruct (terminated (fire _ _ _)); exact H'.
Qed.

Lemma stimulus_single_window (ev : Stimulus) (s : State) :
  single_window s -> single_window (stimulus ev s).
Proof.
  intros H. unfold stimulus.
  destruct (terminated s) eqn:Ht; [assumption|].
  destruct ev.
  8: { apply elapse_single_window. assumption. }
  all: intros Hp; destruct (promise s) eqn:Hs.
  all: try (exfalso; revert Hp; script; unfold is_open; rewrite ?Hs;
            cases_with Ht; congruence).
  all: destruct (H Hs) as [[Hw Hm]|(w0 & Hw & Hm)].
  all: revert Hp; script; unfold is_open; rewrite ?Hs, ?Hw, ?Hm; simpl.
  all: try (destruct (Nat.eqb_spec w w0) as [->|Hne]; simpl;
            rewrite ?Nat.eqb_refl; simpl).
  all: cases_with Ht; intros Hp; try discriminate.
  all: rewrite ?Hw, ?Hm; try single_window_done.
Qed.

Lemma run_single_window (h : Host) (evs : list Stimulus) :
  single_window (run evs (boot h)).
Proof.
  induction evs as [|ev evs IH] using rev_ind.
  - intros _. left. split; reflexivity.
  - rewrite run_app. simpl. apply stimulus_single_window. assumption.
Qed.

(** ** C8: the retry without a window *)





(** ** C2: one retry for every failure *)

Lemma pop_earliest_head (p : Timer -> bool)
    (ts : list Timer) (t : Timer) (rest : list Timer) :
  pop_earliest ts = Some (t, rest) -> p t = true ->
  StronglySorted le (map due (List.filter p ts)) ->
  List.filter p ts = t :: List.filter p rest.
Proof.
  revert t rest. induction ts as [|a ts IH]; intros t rest; simpl.
  - discriminate.
  - destruct (pop_earliest ts) as [[v r]|] eqn:E.
    + destruct (due v <? due a) eqn:L; intros [= <- <-] Hp Hs.
      * apply Nat.ltb_lt in L. destruct (p a) eqn:Pa.
        -- exfalso. simpl in Hs. apply StronglySorted_inv in Hs.
           destruct Hs as [_ Hall]. rewrite Forall_forall in Hall.
           assert (Hv : In (due v) (map due (List.filter p ts))).
           { apply in_map, List.filter_In. split; [|assumption].
             apply (pop_earliest_in _ _ _ E). left. reflexivity. }
           apply list_elem_of_In, Hall in Hv. lia.
        -- simpl. rewrite Pa. apply (IH v r eq_refl Hp Hs).
      * rewrite Hp. reflexivity.
    + intros [= <- <-] Hp _. rewrite Hp.
      apply pop_earliest_none in E. subst. reflexivity.
Qed.

Lemma sorted_snoc (l : list nat) (x : nat) :
  StronglySorted le l -> Forall (fun d => d <= x) l ->
  StronglySorted le (l ++ [x]).
Proof.
  induction l as [|a l IH]; intros Hs Hx; simpl.
  - repeat constructor.
  - apply StronglySorted_inv in Hs. destruct Hs as [Hs Ha].
    inversion Hx; subst. constructor; [apply IH; assumption|].
    apply Forall_app. split; [assumption|]. repeat constructor. assumption.
Qed.

(** A failure: the handler logs it and sets the retry timer. *)
Lemma view_fail (fails fired : list nat) (ts : list Timer) (n : nat) :
  retry_view fails fired ts n ->
  retry_view (fails ++ [n]) fired
    (ts ++ [{| due := n + 1000; cb := CbRetryLoad |}]) n.
Proof.
  intros (H1 & H2 & H3 & H4 & H5).
  unfold retry_view. rewrite List.filter_app, !List.map_app. simpl.
  repeat split.
  - rewrite H1, app_assoc. reflexivity.
  - apply Forall_app. split; [assumption|]. repeat constructor.
  - apply sorted_snoc; assumption.
  - assumption.
  - intros t Ht. apply in_app_or in Ht.
    destruct Ht as [Ht|[<-|[]]]; [auto|simpl; lia].
Qed.

(** A resolve timer is set. *)
Lemma view_resolve_timer (fails fired : list nat) (ts : list Timer)
    (n d : nat) :
  retry_view fails fired ts n ->
  retry_view fails fired (ts ++ [{| due := n + d; cb := CbResolve |}]) n.
Proof.
  intros (H1 & H2 & H3 & H4 & H5).
  unfold retry_view. rewrite List.filter_app. simpl. rewrite app_nil_r.
  repeat split; try assumption.
  intros t Ht. apply in_app_or in Ht.
  destruct Ht as [Ht|[<-|[]]]; [auto|simpl; lia].
Qed.

(** The event loop takes the next timer. *)
Lemma view_pop (fails fired : list nat) (ts : list Timer) (n : nat)
    (t : Timer) (rest : list Timer) :
  retry_view fails fired ts n ->
  pop_earliest ts = Some (t, rest) ->
  retry_view fails
    (fired ++ (if is_retry (cb t) then [due t] else [])) rest (due t).
Proof.
  intros (H1 & H2 & H3 & H4 & H5) E.
  assert (Hn : n <= due t).
  { apply H5, (pop_earliest_in _ _ _ E). left. reflexivity. }
  assert (Hrest : forall u, In u rest -> due t <= due u).
  { intros u Hu. apply (pop_earliest_min _ _ _ E).
    apply (pop_earliest_in _ _ _ E). right. assumption. }
  unfold retry_view. destruct (is_retry (cb t)) eqn:R.
  - pose proof (pop_earliest_head (fun u => is_retry (cb u)) _ _ _ E R H3)
      as Eh.
    rewrite Eh in H1, H2, H3.
    simpl in *. apply StronglySorted_inv in H3. destruct H3 as [H3 _].
    inversion H2; subst.
    repeat split; try assumption.
    + rewrite H1, <- app_assoc. reflexivity.
    + eapply List.Forall_impl; [|eassumption]. simpl. intros. lia.
    + apply Forall_app. split.
      * eapply List.Forall_impl; [|eassumption]. simpl. intros. lia.
      * repeat constructor.
  - rewrite (pop_earliest_filter (fun u => is_retry (cb u)) _ _ _ E R)
      in H1, H2, H3.
    rewrite app_nil_r. repeat split; try assumption.
    + eapply List.Forall_impl; [|eassumption]. simpl. intros. lia.
    + eapply List.Forall_impl; [|eassumption]. simpl. intros. lia.
Qed.

(** Time passes, and no pending timer becomes overdue. *)
Lemma view_advance (fails fired : list nat) (ts : list Timer) (n n' : nat) :
  retry_view fails fired ts n -> n <= n' ->
  (forall t, In t ts -> n' <= due t) ->
  retry_view fails fired ts n'.
Proof.
  intros (H1 & H2 & H3 & H4 & H5) Hle Hts.
  repeat split; try assumption.
  - eapply List.Forall_impl; [|eassumption]. simpl. intros. lia.
  - eapply List.Forall_impl; [|eassumption]. simpl. intros. lia.
Qed.

Lemma retry_emit (e : Effect) (s : State) :
  is_load_failed e = false -> is_retry_fired e = false ->
  retry_inv s -> retry_inv (emit e s).
Proof.
  intros H1 H2 H. unfold retry_inv.
  rewrite !times_of_emit, H1, H2, !app_nil_r. exact H.
Qed.

Lemma retry_set_mainWindow (v : option nat) (s : State) :
  retry_inv s -> retry_inv (set_mainWindow v s).
Proof. exact (fun H => H). Qed.

Lemma retry_set_windows (v : list nat) (n : nat) (s : State) :
  retry_inv s -> retry_inv (set_windows v n s).
Proof. exact (fun H => H). Qed.

Lemma retry_set_promise (v : Promise) (s : State) :
  retry_inv s -> retry_inv (set_promise v s).
Proof. exact (fun H => H). Qed.

Lemma retry_set_terminated (v : bool) (s : State) :
  retry_inv s -> retry_inv (set_terminated v s).
Proof. exact (fun H => H). Qed.

Lemma retry_fail_step (s : State) :
  retry_inv s ->
  retry_inv
    (set_timers (timers s ++ [{| due := now s + 1000; cb := CbRetryLoad |}])
       (emit (ConsoleLog ["Failed to load, retrying..."]) s)).
Proof.
  intros H. unfold retry_inv.
  change (retry_view
            (times_of is_load_failed
               (emit (ConsoleLog ["Failed to load, retrying..."]) s))
            (times_of is_retry_fired
               (emit (ConsoleLog ["Failed to load, retrying..."]) s))
            (timers s ++ [{| due := now s + 1000; cb := CbRetryLoad |}])
            (now s)).
  rewrite !times_of_emit. simpl. rewrite app_nil_r.
  apply view_fail. exact H.
Qed.

Lemma retry_resolve_step (x : State) (ts : list Timer) (n d : nat) :
  timers x = ts -> now x = n ->
  retry_inv x ->
  retry_inv (set_timers (ts ++ [{| due := n + d; cb := CbResolve |}]) x).
Proof.
  intros <- <- H. unfold retry_inv.
  change (retry_view (times_of is_load_failed x) (times_of is_retry_fired x)
            (timers x ++ [{| due := now x + d; cb := CbResolve |}]) (now x)).
  apply view_resolve_timer. exact H.
Qed.

Ltac retry_steps :=
  repeat match goal with
         | H : retry_inv ?s |- retry_inv ?s => exact H
         | |- retry_inv (set_timers (_ ++ [{| due := _; cb := CbRetryLoad |}])
                           (emit _ _)) =>
             apply retry_fail_step
         | |- retry_inv (set_timers (_ ++ [{| due := _; cb := CbResolve |}])
                           _) =>
             apply retry_resolve_step; [reflexivity|reflexivity|]
         | |- retry_inv (emit _ _) =>
             apply retry_emit; [reflexivity|reflexivity|]
         | |- retry_inv (set_mainWindow _ _) => apply retry_set_mainWindow
         | |- retry_inv (set_windows _ _ _) => apply retry_set_windows
         | |- retry_inv (set_promise _ _) => apply retry_set_promise
         | |- retry_inv (set_terminated _ _) => apply retry_set_terminated
         end.

Lemma run_callback_retry_inv (c : Callback) (s : State) :
  retry_inv s -> retry_inv (run_callback c s).
Proof.
  intros H. destruct c; simpl; unfold_script; cases; retry_steps.
Qed.

Lemma run_callback_now (c : Callback) (s : State) :
  now (run_callback c s) = now s.
Proof. destruct c; simpl; unfold_script; cases; reflexivity. Qed.

Lemma fire_retry_inv (fuel target : nat) (s : State) :
  retry_inv s -> now s <= target ->
  retry_inv (fire fuel target s) /\ now (fire fuel target s) <= target.
Proof.
  intros H Hn.
  apply (fire_keeps_due target
           (fun s' => retry_inv s' /\ now s' <= target)); [|auto].
  intros s0 t rest [H0 Hn0] _ E Hdue.
  assert (Hmax : Nat.max (now s0) (due t) = due t).
  { destruct H0 as (_ & _ & _ & _ & H5).
    assert (Hin : In t (timers s0))
      by (apply (pop_earliest_in _ _ _ E); left; reflexivity).
    apply H5 in Hin. lia. }
  rewrite Hmax. split.
  - apply run_callback_retry_inv. unfold retry_inv.
    rewrite !times_of_emit.
    change (retry_view
              (times_of is_load_failed s0
               ++ (if is_load_failed (Fired (cb t)) then [due t] else []))
              (times_of is_retry_fired s0
               ++ (if is_retry_fired (Fired (cb t)) then [due t] else []))
              rest (due t)).
    replace (is_retry_fired (Fired (cb t))) with (is_retry (cb t))
      by (destruct (cb t); reflexivity).
    simpl. rewrite app_nil_r.
    apply (view_pop _ _ _ _ _ _ H0 E).
  - rewrite run_callback_now. simpl. assumption.
Qed.

Lemma elapse_retry_inv (ms : nat) (s : State) :
  retry_inv s -> retry_inv (elapse ms s).
Proof.
  intros H. unfold elapse.
  destruct (terminated s) eqn:Ht.
  - assert (E : fire (length (timers s)) (now s + ms) s = s).
    { destruct (length (timers s)); simpl; rewrite ?Ht; reflexivity. }
    rewrite E, Ht. assumption.
  - rewrite fire_terminated, Ht.
    destruct (fire_retry_inv (length (timers s)) (now s + ms) s H)
      as [H' Hn]; [lia|].
    unfold retry_inv.
    apply (view_advance _ _ _ (now (fire (length (timers s)) (now s + ms) s)));
      [exact H'|exact Hn|].
    intros t Hin. simpl in Hin.
    pose proof (fire_exhaustive (length (timers s)) (now s + ms) s Ht
                  (le_n _) t Hin).
    simpl. lia.
Qed.

Lemma stimulus_retry_inv (ev : Stimulus) (s : State) :
  retry_inv s -> retry_inv (stimulus ev s).
Proof.
  intros H. unfold stimulus.
  destruct (terminated s) eqn:Ht; [assumption|].
  destruct ev.
  8: { apply elapse_retry_inv. assumption. }
  all: script; unfold is_open; cases_with Ht; retry_steps.
Qed.

Lemma run_retry_inv (h : Host) (evs : list Stimulus) :
  retry_inv (run evs (boot h)).
Proof.
  induction evs as [|ev evs IH] using rev_ind.
  - unfold retry_inv, retry_view. simpl.
    repeat split; try constructor.
    intros t [<-|[]]. simpl. lia.
  - rewrite run_app. simpl. apply stimulus_retry_inv. assumption.
Qed.

Lemma filter_all (p : nat -> bool) (l : list nat) :
  (forall x, In x l -> p x = true) -> List.filter p l = l.
Proof.
  induction l as [|a l IH]; intros H; simpl; [reflexivity|].
  rewrite (H a) by (left; reflexivity). f_equal. apply IH.
  intros x Hx. apply H. right. assumption.
Qed.

Lemma filter_none (p : nat -> bool) (l : list nat) :
  (forall x, In x l -> p x = false) -> List.filter p l = [].
Proof.
  induction l as [|a l IH]; intros H; simpl; [reflexivity|].
  rewrite (H a) by (left; reflexivity). apply IH.
  intros x Hx. apply H. right. assumption.
Qed.

(** C2, as the code has it.  In every run, every time the
    did-fail-load handler has run (for the first load or for a retry
    that failed in its turn) there is exactly one retry, one second
    later: the retry closure has been called at that time if the clock
    has reached it, and else its timer is pending for that time; no
    retry closure is called, and no retry timer pending, that is not the
    retry of a failure.  The handler counts nothing: the retries of a run
    are as many as its failures.  The handler itself logs the failure
    and sets the one timer; it loads nothing at once and does not end the
    application.  The retry loads the root page in the window
    [mainWindow] holds, and throws when [mainWindow] is null. *)
Theorem retry_once_per_failure (h : Host) (evs : list Stimulus) :
  times_of is_retry_fired (run evs (boot h)) =
    List.filter (fun t => t <=? now (run evs (boot h)))
      (map (fun t => t + 1000)
         (times_of is_load_failed (run evs (boot h)))) /\
  dues is_retry (run evs (boot h)) =
    List.filter (fun t => now (run evs (boot h)) <? t)
      (map (fun t => t + 1000)
         (times_of is_load_failed (run evs (boot h)))) /\
  (forall w,
      terminated (run evs (boot h)) = false ->
      is_open w (run evs (boot h)) = true ->
      terminated (run (evs ++ [DidFailLoad w]) (boot h)) = false /\
      timers (run (evs ++ [DidFailLoad w]) (boot h)) =
        timers (run evs (boot h)) ++
        [{| due := now (run evs (boot h)) + 1000; cb := CbRetryLoad |}] /\
      trace (run (evs ++ [DidFailLoad w]) (boot h)) =
        trace (run evs (boot h)) ++
        [(now (run evs (boot h)),
          ConsoleLog ["Failed to load, retrying..."])]) /\
  (forall s,
      run_callback CbRetryLoad s =
      match mainWindow s with
      | Some w => emit (LoadURL w root_url) s
      | None => emit (Uncaught "TypeError") s
      end).
Proof.
  pose proof (run_retry_inv h evs) as (H1 & _ & _ & H4 & _).
  pose proof (run_settled h evs) as Hs.
  set (s := run evs (boot h)) in *.
  assert (Hfired : forall x, In x (times_of is_retry_fired s) -> x <= now s).
  { intros x Hx. rewrite Forall_forall in H4.
    apply H4, list_elem_of_In, Hx. }
  assert (Hpend : forall x, In x (dues is_retry s) -> now s < x).
  { intros x Hx. unfold dues in Hx. apply in_map_iff in Hx.
    destruct Hx as (t & <- & Ht). apply List.filter_In in Ht.
    apply Hs, Ht. }
  fold (dues is_retry s) in H1.
  split; [|split; [|split]].
  - rewrite H1, List.filter_app.
    rewrite filter_all, filter_none, app_nil_r; [reflexivity| |].
    + intros x Hx. apply Hpend in Hx. apply Nat.leb_gt. lia.
    + intros x Hx. apply Hfired in Hx. apply Nat.leb_le. lia.
  - rewrite H1, List.filter_app.
    rewrite filter_none, filter_all; [reflexivity| |].
    + intros x Hx. apply Hpend in Hx. apply Nat.ltb_lt. lia.
    + intros x Hx. apply Hfired in Hx. apply Nat.ltb_ge. lia.
  - intros w Ht Hw. rewrite run_app. simpl. fold s.
    unfold stimulus. rewrite Ht, Hw. repeat split. exact Ht.
  - intros s0. reflexivity.
Qed.

Lemma retry_once_per_failure_witness :
  terminated (run [Elapse 3000] (boot example_host)) = false /\
  is_open 0 (run [Elapse 3000] (boot example_host)) = true /\
  timers (run ([Elapse 3000] ++ [DidFailLoad 0]) (boot example_host)) =
    timers (run [Elapse 3000] (boot example_host)) ++
    [{| due := now (run [Elapse 3000] (boot example_host)) + 1000;
        cb := CbRetryLoad |}].
Proof.
  assert (T : terminated (run [Elapse 3000] (boot example_host)) = false)
    by (vm_compute; reflexivity).
  assert (W : is_open 0 (run [Elapse 3000] (boot example_host)) = true)
    by (vm_compute; reflexivity).
  destruct (retry_once_per_failure example_host [Elapse 3000])
    as (_ & _ & H & _).
  destruct (H 0 T W) as (_ & H' & _).
  split; [exact T|]. split; [exact W|exact H'].
Defined.

(** * Further properties of main.js *)

(** ** What timer callbacks leave alone *)

Lemma elapse_times_of (p : Effect -> bool) (ms : nat) (s : State) :
  (forall c, p (Fired c) = false) ->
  (forall w url, p (LoadURL w url) = false) ->
  (forall x, p (Uncaught x) = false) ->
  (forall w opts, p (NewBrowserWindow w opts) = false) ->
  (forall msg, p (ConsoleLog msg) = false) ->
  times_of p (elapse ms s) = times_of p s.
Proof.
  intros P1 P2 P3 P4 P5.
  assert (Hcb : forall c s0, times_of p (run_callback c s0) = times_of p s0).
  { intros c s0. destruct c; simpl; unfold_script; cases; trace_simpl;
      rewrite ?P1, ?P2, ?P3, ?P4, ?P5; simpl; rewrite ?app_nil_r;
      reflexivity. }
  unfold elapse.
  assert (H : times_of p (fire (length (timers s)) (now s + ms) s)
              = times_of p s).
  { apply (fire_keeps (fun s' => times_of p s' = times_of p s));
      [|reflexivity].
    intros s0 t rest H _ _. rewrite Hcb, times_of_emit, P1, app_nil_r.
    exact H. }
  destruct (terminated (fire _ _ _)); exact H.
Qed.

(** ** X1: no kill and no quit while the application runs *)

Lemma stimulus_quit_inv (ev : Stimulus) (s : State) :
  quit_inv s -> quit_inv (stimulus ev s).
Proof.
  intros H. unfold stimulus, quit_inv in *.
  destruct (terminated s) eqn:Ht; [rewrite Ht; assumption|].
  destruct ev.
  8: { rewrite elapse_terminated, Ht.
       rewrite elapse_times_of by reflexivity. assumption. }
  all: script; unfold is_open; cases_with Ht; trace_simpl;
    rewrite ?H; simpl; auto.
Qed.

Lemma run_quit_inv (h : Host) (evs : list Stimulus) :
  quit_inv (run evs (boot h)).
Proof.
  induction evs as [|ev evs IH] using rev_ind.
  - reflexivity.
  - rewrite run_app. simpl. apply stimulus_quit_inv. assumption.
Qed.

(** X1.  While the application runs the script has neither killed the
    child nor called app.quit(); in a whole run it calls app.quit() once
    at most. *)
Theorem runs_without_kill_or_quit (h : Host) (evs : list Stimulus) :
  length (times_of is_app_quit (run evs (boot h))) <= 1 /\
  (terminated (run evs (boot h)) = false ->
   times_of is_kill (run evs (boot h)) = [] /\
   times_of is_app_quit (run evs (boot h)) = []).
Proof.
  pose proof (run_quit_inv h evs) as Q. unfold quit_inv in Q.
  pose proof (run_kill_inv h evs) as K. unfold kill_inv, kills in K.
  destruct (terminated (run evs (boot h))).
  - split; [assumption|discriminate].
  - rewrite Q. split; [simpl; lia|]. intros _. split; [|reflexivity].
    destruct (times_of is_kill _); [reflexivity|discriminate].
Qed.

Lemma runs_without_kill_or_quit_witness :
  terminated
    (run [Activate; Elapse 3000; DidFailLoad 0; Elapse 400; UserCloses 1]
       (boot example_host)) = false /\
  times_of is_kill
    (run [Activate; Elapse 3000; DidFailLoad 0; Elapse 400; UserCloses 1]
       (boot example_host)) = [].
Proof.
  assert (T : terminated
                (run [Activate; Elapse 3000; DidFailLoad 0; Elapse 400;
                      UserCloses 1] (boot example_host)) = false)
    by (vm_compute; reflexivity).
  destruct (runs_without_kill_or_quit example_host
              [Activate; Elapse 3000; DidFailLoad 0; Elapse 400;
               UserCloses 1]) as [_ H].
  destruct (H T) as [H' _]. split; [exact T|exact H'].
Defined.

(** ** X2: the ready handler goes on once *)

Ltac ready_once_close Hp :=
  unfold ready_once in *; simpl in *; rewrite ?Hp in *; trace_simpl;
  repeat match goal with
         | H : _ /\ _ |- _ => destruct H
         end;
  repeat match goal with
         | H : map fst _ = [] |- _ => rewrite H
         end;
  simpl; repeat split; solve [assumption | reflexivity | lia | congruence].

Lemma run_callback_ready_once (c : Callback) (s : State) :
  terminated s = false -> ready_once s -> ready_once (run_callback c s).
Proof.
  intros Ht H. destruct (promise s) eqn:Hp.
  all: destruct c; simpl; unfold_script; rewrite ?Hp.
  all: unfold ready_once in H; rewrite Hp in H.
  all: cases; ready_once_close Hp.
Qed.

Lemma elapse_ready_once (ms : nat) (s : State) :
  ready_once s -> ready_once (elapse ms s).
Proof.
  intros H. unfold elapse.
  assert (H' : ready_once (fire (length (timers s)) (now s + ms) s)).
  { apply (fire_keeps ready_once); [|assumption].
    intros s0 t rest H0 Ht0 _. apply run_callback_ready_once.
    - exact Ht0.
    - unfold ready_once in *. simpl. rewrite !times_of_emit. simpl.
      rewrite !app_nil_r. exact H0. }
  destruct (terminated (fire _ _ _)); exact H'.
Qed.

(** Events other than the child's error and the passing of time leave
    the promise and the two lines of the ready handler alone. *)
Lemma stimulus_ready_frame (ev : Stimulus) (s : State) :
  (forall e, ev <> ProcError e) -> (forall ms, ev <> Elapse ms) ->
  promise (stimulus ev s) = promise s /\
  times_of is_creating_window (stimulus ev s)
  = times_of is_creating_window s /\
  times_of is_start_failed (stimulus ev s) = times_of is_start_failed s /\
  (terminated s = true -> terminated (stimulus ev s) = true).
Proof.
  intros He Hm. unfold stimulus.
  destruct (terminated s) eqn:Ht; [auto|].
  destruct ev; try (exfalso; eapply He; reflexivity);
    try (exfalso; eapply Hm; reflexivity).
  all: script; unfold is_open; cases_with Ht; trace_simpl;
    rewrite ?app_nil_r; repeat split; discriminate.
Qed.

Lemma error_after_settled (e : string) (s : State) :
  terminated s = false -> promise s <> Pending ->
  stimulus (ProcError e) s
  = emit (ConsoleError ["Failed to start Flask: " +:+ e]) s.
Proof.
  intros Ht Hp. script. rewrite Ht. cases; reflexivity.
Qed.

Lemma error_rejects (e : string) (s : State) :
  terminated s = false -> promise s = Pending ->
  promise (stimulus (ProcError e) s) = Rejected e.
Proof.
  intros Ht Hp. script. rewrite Ht. simpl. rewrite Hp.
  cases_with Ht; reflexivity.
Qed.

Lemma stimulus_ready_once (ev : Stimulus) (s : State) :
  ready_once s -> ready_once (stimulus ev s).
Proof.
  intros H.
  destruct (terminated s) eqn:Ht;
    [rewrite stimulus_terminated; assumption|].
  destruct ev.
  8: { unfold stimulus. rewrite Ht. apply elapse_ready_once. assumption. }
  3: { destruct (promise s) eqn:Hp.
       - unfold ready_once in *. rewrite Hp in H. destruct H as [H1 H2].
         rewrite (error_rejects error s Ht Hp).
         destruct (flaskProcess s) as [c|] eqn:Hf.
         + destruct (error_while_pending error s c Ht Hp Hf)
             as (T & Tr & _).
           unfold times_of in *. rewrite Tr, !List.filter_app, !List.map_app.
           rewrite H1, H2. repeat split. exact T.
         + revert H1 H2. script. rewrite Ht. simpl. rewrite Hp. simpl.
           rewrite Ht. simpl. rewrite Hf. simpl. intros H1 H2.
           trace_simpl. rewrite H1, H2. repeat split.
       - rewrite error_after_settled by congruence.
         unfold ready_once in *. simpl. rewrite !times_of_emit. simpl.
         rewrite !app_nil_r. exact H.
       - rewrite error_after_settled by congruence.
         unfold ready_once in *. simpl. rewrite !times_of_emit. simpl.
         rewrite !app_nil_r. exact H. }
  all: match goal with
       | |- ready_once (stimulus ?e ?s0) =>
           destruct (stimulus_ready_frame e s0) as (F1 & F2 & F3 & F4);
             [discriminate|discriminate|]
       end.
  all: unfold ready_once in *; rewrite F1, F2, F3.
  all: destruct (promise s); try assumption.
  all: destruct H as (H1 & H2 & H3); congruence.
Qed.

Lemma run_ready_once (h : Host) (evs : list Stimulus) :
  ready_once (run evs (boot h)).
Proof.
  induction evs as [|ev evs IH] using rev_ind.
  - split; reflexivity.
  - rewrite run_app. simpl. apply stimulus_ready_once. assumption.
Qed.

Lemma ready_handler_goes_on_once_aux (h : Host) (evs : list Stimulus) :
  length (times_of is_creating_window (run evs (boot h))) <= 1 /\
  length (times_of is_start_failed (run evs (boot h))) <= 1.
Proof.
  pose proof (run_ready_once h evs) as H. unfold ready_once in H.
  destruct (promise (run evs (boot h))).
  - destruct H as [-> ->]. simpl. lia.
  - destruct H as [-> ->]. simpl. lia.
  - destruct H as (-> & -> & _). simpl. lia.
Qed.

(** X2.  In every run the ready handler goes on past its await once at
    most, and on one path only: line 74 (and createWindow) has run once
    exactly when the promise is fulfilled, the catch block has run once
    exactly when it is rejected, and never both; after the catch block
    the application has ended. *)
Theorem ready_handler_goes_on_once (h : Host) (evs : list Stimulus) :
  length (times_of is_creating_window (run evs (boot h)))
  + length (times_of is_start_failed (run evs (boot h))) <= 1 /\
  (length (times_of is_creating_window (run evs (boot h))) = 1 <->
   promise (run evs (boot h)) = Fulfilled) /\
  (length (times_of is_start_failed (run evs (boot h))) = 1 <->
   exists e, promise (run evs (boot h)) = Rejected e) /\
  (length (times_of is_start_failed (run evs (boot h))) = 1 ->
   terminated (run evs (boot h)) = true).
Proof.
  pose proof (run_ready_once h evs) as H. unfold ready_once in H.
  destruct (promise (run evs (boot h))) as [| |e].
  - destruct H as [-> ->]. simpl. repeat split; try lia; try discriminate.
    intros [e He]. discriminate.
  - destruct H as [-> ->]. simpl. repeat split; try lia; try discriminate.
    intros [e He]. discriminate.
  - destruct H as (-> & -> & ->). simpl.
    repeat split; try lia; try discriminate. intros _. exists e. reflexivity.
Qed.

Lemma ready_handler_goes_on_once_witness :
  terminated
    (run [ProcError "Error: spawn python3 ENOENT"] (boot example_host))
  = true.
Proof.
  destruct (ready_handler_goes_on_once example_host
              [ProcError "Error: spawn python3 ENOENT"])
    as (_ & _ & _ & H).
  apply H. vm_compute. reflexivity.
Defined.

(** ** X3: how windows are made *)

Lemma windows_loaded_snoc (h : Host) (tr : list (nat * Effect))
    (t : nat) (e : Effect) :
  is_new_window e = false ->
  windows_loaded h tr -> windows_loaded h (tr ++ [(t, e)]).
Proof.
  intros He. induction tr as [|[t0 e0] tr IH]; simpl.
  - intros _. destruct e; try exact I. discriminate.
  - destruct e0; try exact IH.
    intros (H1 & [rest' H2] & H3). split; [assumption|].
    split; [|apply IH; assumption].
    subst tr. simpl. eexists. reflexivity.
Qed.

Lemma windows_loaded_create (h : Host) (tr : list (nat * Effect))
    (t w : nat) :
  windows_loaded h tr ->
  windows_loaded h
    (tr ++ [(t, NewBrowserWindow w (window_options h));
            (t, LoadURL w root_url)]).
Proof.
  induction tr as [|[t0 e0] tr IH]; simpl.
  - intros _. repeat split. eexists. reflexivity.
  - destruct e0; try exact IH.
    intros (H1 & [rest' H2] & H3). split; [assumption|].
    split; [|apply IH; assumption].
    subst tr. simpl. eexists. reflexivity.
Qed.

Lemma windows_loaded_at (h : Host) (pre post : list (nat * Effect))
    (t w : nat) (opts : WindowOptions) :
  windows_loaded h (pre ++ (t, NewBrowserWindow w opts) :: post) ->
  opts = window_options h /\
  exists post', post = (t, LoadURL w root_url) :: post'.
Proof.
  induction pre as [|[t0 e0] pre IH]; simpl.
  - intros (H1 & H2 & _). auto.
  - destruct e0; try exact IH. intros (_ & _ & H). apply IH, H.
Qed.

Ltac loaded_steps :=
  repeat match goal with
         | H : windows_loaded ?h ?tr |- windows_loaded ?h ?tr => exact H
         | |- windows_loaded _
                ((?X ++ [(_, NewBrowserWindow _ _)]) ++ [(_, LoadURL _ _)]) =>
             rewrite <- (app_assoc X); apply windows_loaded_create
         | |- windows_loaded _ (_ ++ [_]) =>
             apply windows_loaded_snoc; [reflexivity|]
         end.

Lemma run_callback_windows_loaded (c : Callback) (s : State) :
  windows_loaded (host s) (trace s) ->
  windows_loaded (host s) (trace (run_callback c s)).
Proof.
  intros H. destruct c; simpl; unfold_script; cases; loaded_steps.
Qed.

Lemma run_callback_host (c : Callback) (s : State) :
  host (run_callback c s) = host s.
Proof. destruct c; simpl; unfold_script; cases; reflexivity. Qed.

Lemma elapse_windows_loaded (h : Host) (ms : nat) (s : State) :
  host s = h ->
  windows_loaded h (trace s) -> windows_loaded h (trace (elapse ms s)).
Proof.
  intros Hh H. unfold elapse.
  assert (H' : host (fire (length (timers s)) (now s + ms) s) = h /\
               windows_loaded h
                 (trace (fire (length (timers s)) (now s + ms) s))).
  { apply (fire_keeps
             (fun s' => host s' = h /\ windows_loaded h (trace s')));
      [|auto].
    intros s0 t rest [Hh0 H0] _ _. rewrite run_callback_host. simpl.
    split; [assumption|]. rewrite <- Hh0.
    apply (run_callback_windows_loaded (cb t)
             (emit (Fired (cb t))
                (set_now (Nat.max (now s0) (due t)) (set_timers rest s0)))).
    simpl. rewrite Hh0. apply windows_loaded_snoc; [reflexivity|assumption]. }
  destruct (terminated (fire _ _ _)); apply H'.
Qed.

Lemma stimulus_windows_loaded (h : Host) (ev : Stimulus) (s : State) :
  host s = h ->
  windows_loaded h (trace s) -> windows_loaded h (trace (stimulus ev s)).
Proof.
  intros Hh H. unfold stimulus.
  destruct (terminated s) eqn:Ht; [assumption|].
  destruct ev.
  8: { apply elapse_windows_loaded; assumption. }
  all: script; unfold is_open; cases_with Ht; rewrite ?Hh; loaded_steps.
Qed.

Lemma run_windows_loaded (h : Host) (evs : list Stimulus) :
  windows_loaded h (trace (run evs (boot h))).
Proof.
  induction evs as [|ev evs IH] using rev_ind.
  - simpl. exact I.
  - rewrite run_app. simpl. apply stimulus_windows_loaded; [|assumption].
    destruct (run_same_child evs (boot h)) as [_ Hh]. exact Hh.
Qed.

(** X3.  Wherever a run makes a window (from the ready handler or from
    the activate handler), the window is made with the options of
    createWindow (1200 by 800, the icon under the script's directory, no
    node integration, context isolation, the title and the background
    colour), and the next thing the script does, at the same time, is to
    load http://localhost:5000 in that window. *)
Theorem every_window_is_loaded (h : Host) (evs : list Stimulus)
    (pre post : list (nat * Effect)) (t w : nat) (opts : WindowOptions) :
  trace (run evs (boot h)) = pre ++ (t, NewBrowserWindow w opts) :: post ->
  width opts = 1200 /\ height opts = 800 /\
  icon opts = (dirname h, "assets/icon.png") /\
  nodeIntegration opts = false /\ contextIsolation opts = true /\
  title opts = "Chore List App" /\ backgroundColor opts = "#667eea" /\
  exists post', post = (t, LoadURL w "http://localhost:5000") :: post'.
Proof.
  intros E. pose proof (run_windows_loaded h evs) as H. rewrite E in H.
  apply windows_loaded_at in H. destruct H as [-> H].
  repeat split. exact H.
Qed.

Lemma every_window_is_loaded_witness :
  exists post',
    [(3000, LoadURL 0 root_url)]
    = (3000, LoadURL 0 "http://localhost:5000") :: post'.
Proof.
  assert (E : trace (run [Elapse 3000] (boot example_host)) =
              [(0, ConsoleLog ["Starting Flask server..."]);
               (0, Spawn (flask_child example_host));
               (3000, Fired CbResolve);
               (3000, ConsoleLog ["Creating window..."])]
              ++ (3000, NewBrowserWindow 0 (window_options example_host))
                 :: [(3000, LoadURL 0 root_url)])
    by (vm_compute; reflexivity).
  destruct (every_window_is_loaded example_host [Elapse 3000] _ _ _ _ _ E)
    as (_ & _ & _ & _ & _ & _ & _ & H).
  exact H.
Defined.

(** ** X4: the windows and the variable mainWindow *)

Lemma view_create (ws : list nat) (nw : nat) (mw : option nat) :
  windows_view ws nw mw false -> length ws <= 1 ->
  windows_view (ws ++ [nw]) (S nw) (Some nw) false.
Proof.
  intros (H1 & H2 & H3 & H4 & H5 & H6) Hlen. repeat split.
  - intros w Hw. apply in_app_or in Hw.
    destruct Hw as [Hw|[<-|[]]]; [apply H1 in Hw|]; lia.
  - apply List.NoDup_app; [assumption|repeat constructor; intros []|].
    intros x Hx [<-|[]]. apply H1 in Hx. lia.
  - injection H as <-. apply in_or_app. right. left. reflexivity.
  - injection H as <-. reflexivity.
  - rewrite length_app. simpl. lia.
  - discriminate.
  - discriminate.
  - discriminate.
Qed.

Lemma filter_open_shorter (w : nat) (ws : list nat) :
  existsb (Nat.eqb w) ws = true ->
  length (List.filter (fun x => negb (x =? w)) ws) < length ws.
Proof.
  induction ws as [|a ws IH]; simpl; [discriminate|].
  rewrite (Nat.eqb_sym a w).
  destruct (w =? a); simpl.
  - intros _. pose proof (List.filter_length_le
                            (fun x => negb (x =? w)) ws). lia.
  - intros H. apply IH in H. lia.
Qed.

Lemma view_close (ws : list nat) (nw : nat) (mw : option nat) (w : nat) :
  windows_view ws nw mw false ->
  existsb (Nat.eqb w) ws = true ->
  windows_view (List.filter (fun x => negb (x =? w)) ws) nw None false.
Proof.
  intros (H1 & H2 & H3 & H4 & H5 & H6) Hw.
  pose proof (filter_open_shorter w ws Hw) as Hlt.
  repeat split; try discriminate.
  - intros x Hx. apply List.filter_In in Hx. apply H1, Hx.
  - apply List.NoDup_filter. assumption.
  - lia.
  - lia.
Qed.

Lemma view_ended (nw : nat) : windows_view [] nw None true.
Proof.
  repeat split; try discriminate; simpl; try lia; try constructor;
    try (intros w []).
Qed.

Lemma view_empty_main (nw : nat) (mw : option nat) :
  windows_view [] nw mw false -> mw = None.
Proof.
  intros (_ & _ & H3 & _). destruct mw as [w|]; [|reflexivity].
  destruct (H3 w eq_refl) as [[] _].
Qed.

Lemma run_callback_windows_inv (c : Callback) (s : State) :
  terminated s = false ->
  single_window s -> windows_inv s -> windows_inv (run_callback c s).
Proof.
  intros Ht Hs H. unfold windows_inv in *.
  destruct c; simpl; unfold_script.
  - destruct (promise s) eqn:Hp; try assumption. simpl.
    rewrite Ht in *.
    apply (view_create _ _ (mainWindow s)); [assumption|].
    destruct (Hs Hp) as [[-> _]|(w & -> & _)]; simpl; lia.
  - destruct (mainWindow s) eqn:Hm; simpl; rewrite ?Hm; assumption.
Qed.

Lemma elapse_windows_inv (ms : nat) (s : State) :
  single_window s -> windows_inv s -> windows_inv (elapse ms s).
Proof.
  intros Hs H. unfold elapse.
  assert (H' : single_window (fire (length (timers s)) (now s + ms) s) /\
               windows_inv (fire (length (timers s)) (now s + ms) s)).
  { apply (fire_keeps (fun s' => single_window s' /\ windows_inv s'));
      [|auto].
    intros s0 t rest [Hs0 H0] Ht0 _. split.
    - apply run_callback_single_window. exact Hs0.
    - apply run_callback_windows_inv; [exact Ht0|exact Hs0|exact H0]. }
  destruct (terminated (fire _ _ _)); apply H'.
Qed.

Lemma stimulus_windows_inv (ev : Stimulus) (s : State) :
  single_window s -> windows_inv s -> windows_inv (stimulus ev s).
Proof.
  intros Hs H. unfold stimulus.
  destruct (terminated s) eqn:Ht; [assumption|].
  destruct ev.
  8: { apply elapse_windows_inv; assumption. }
  all: unfold windows_inv in *; rewrite Ht in H.
  all: script; unfold is_open; cases_with Ht.
  all: try assumption; try apply view_ended.
  all: try (rewrite (view_empty_main _ _ H); apply view_ended).
  - match goal with
    | E : List.filter _ _ = _ :: _ |- _ => rewrite <- E
    end.
    eapply view_close; eassumption.
  - apply (view_create _ _ None); [assumption|].
    destruct H as (_ & _ & _ & _ & H5 & _). apply H5. reflexivity.
Qed.

Lemma run_windows_inv (h : Host) (evs : list Stimulus) :
  windows_inv (run evs (boot h)).
Proof.
  induction evs as [|ev evs IH] using rev_ind.
  - unfold windows_inv. simpl. repeat split; try discriminate;
      simpl; try lia; try constructor; try (intros w []).
  - rewrite run_app. simpl.
    apply stimulus_windows_inv; [apply run_single_window|assumption].
Qed.

(** X4.  In every run the variable [mainWindow], when it is not null,
    holds an open window, the one made last; so the retry closure never
    calls loadURL on a window that was closed.  At most two windows are
    open at a time, at most one when [mainWindow] is null, and none once
    the application has ended. *)
Theorem main_window_is_open (h : Host) (evs : list Stimulus) :
  (forall w, mainWindow (run evs (boot h)) = Some w ->
             In w (windows (run evs (boot h))) /\
             nextWindow (run evs (boot h)) = S w) /\
  length (windows (run evs (boot h))) <= 2 /\
  (mainWindow (run evs (boot h)) = None ->
   length (windows (run evs (boot h))) <= 1) /\
  (terminated (run evs (boot h)) = true ->
   windows (run evs (boot h)) = [] /\
   mainWindow (run evs (boot h)) = None).
Proof.
  destruct (run_windows_inv h evs) as (_ & _ & H3 & H4 & H5 & H6).
  auto.
Qed.

Lemma main_window_is_open_witness :
  In 1 (windows (run [Activate; Elapse 3000] (boot example_host))) /\
  nextWindow (run [Activate; Elapse 3000] (boot example_host)) = 2.
Proof.
  destruct (main_window_is_open example_host [Activate; Elapse 3000])
    as (H & _).
  apply (H 1). vm_compute. reflexivity.
Defined.


(** ** X5: one window when the application is never activated *)

Lemma run_callback_ready_windows (c : Callback) (s : State) :
  times_of is_new_window s = times_of is_creating_window s ->
  times_of is_new_window (run_callback c s)
  = times_of is_creating_window (run_callback c s).
Proof.
  intros H. destruct c; simpl; unfold_script; cases; trace_simpl;
    unfold times_of in H; rewrite H, ?app_nil_r; reflexivity.
Qed.

Lemma elapse_ready_windows (ms : nat) (s : State) :
  times_of is_new_window s = times_of is_creating_window s ->
  times_of is_new_window (elapse ms s)
  = times_of is_creating_window (elapse ms s).
Proof.
  intros H. unfold elapse.
  assert (H' : times_of is_new_window
                 (fire (length (timers s)) (now s + ms) s)
               = times_of is_creating_window
                   (fire (length (timers s)) (now s + ms) s)).
  { apply (fire_keeps
             (fun s' => times_of is_new_window s'
                        = times_of is_creating_window s')); [|assumption].
    intros s0 t rest H0 _ _. apply run_callback_ready_windows.
    rewrite !times_of_emit. simpl. rewrite !app_nil_r. exact H0. }
  destruct (terminated (fire _ _ _)); exact H'.
Qed.

Lemma stimulus_ready_windows (ev : Stimulus) (s : State) :
  ev <> Activate ->
  times_of is_new_window s = times_of is_creating_window s ->
  times_of is_new_window (stimulus ev s)
  = times_of is_creating_window (stimulus ev s).
Proof.
  intros Hev H. unfold stimulus.
  destruct (terminated s) eqn:Ht; [assumption|].
  destruct ev; try congruence.
  7: { apply elapse_ready_windows. assumption. }
  all: script; unfold is_open; cases_with Ht; trace_simpl;
    unfold times_of in H; rewrite H, ?app_nil_r; reflexivity.
Qed.

(** X5.  In a run in which the application is never activated, windows
    are made by the ready handler only: a window is made exactly when
    line 74 runs, so at most once in the run. *)
Theorem one_window_without_activate (h : Host) (evs : list Stimulus) :
  Forall (fun ev => ev <> Activate) evs ->
  times_of is_new_window (run evs (boot h))
  = times_of is_creating_window (run evs (boot h)) /\
  length (times_of is_new_window (run evs (boot h))) <= 1.
Proof.
  intros Hevs.
  assert (H : times_of is_new_window (run evs (boot h))
              = times_of is_creating_window (run evs (boot h))).
  { induction evs as [|ev evs IH] using rev_ind; [reflexivity|].
    apply Forall_app in Hevs. destruct Hevs as [Hevs Hev].
    inversion Hev; subst.
    rewrite run_app. simpl. apply stimulus_ready_windows; auto. }
  split; [exact H|]. rewrite H.
  destruct (ready_handler_goes_on_once_aux h evs) as [Hle _]. lia.
Qed.

Lemma one_window_without_activate_witness :
  times_of is_new_window
    (run [Elapse 3000; DidFailLoad 0; Elapse 1000] (boot example_host))
  = times_of is_creating_window
      (run [Elapse 3000; DidFailLoad 0; Elapse 1000] (boot example_host)) /\
  length
    (times_of is_new_window
       (run [Elapse 3000; DidFailLoad 0; Elapse 1000] (boot example_host)))
  <= 1.
Proof.
  apply (one_window_without_activate example_host
           [Elapse 3000; DidFailLoad 0; Elapse 1000]).
  repeat constructor; discriminate.
Defined.

(** ** X6: the readiness test *)

Lemma prefix_spec (needle haystack : string) :
  String.prefix needle haystack = true <->
  exists post, haystack = needle +:+ post.
Proof.
  revert haystack. induction needle as [|a n IH]; intros hay; simpl.
  - split; [intros _; exists hay; reflexivity|].
    intros _. destruct hay; reflexivity.
  - destruct hay as [|b hay]; [split; [discriminate|intros [p Hp]; discriminate]|].
    simpl. destruct (Ascii.ascii_dec a b) as [->|Hne].
    + rewrite IH. split; intros [p Hp]; exists p.
      * subst hay. reflexivity.
      * change (String b hay = String b (n +:+ p)) in Hp. congruence.
    + split; [discriminate|]. intros [p Hp].
      change (String b hay = String a (n +:+ p)) in Hp. congruence.
Qed.

Lemma includes_spec (needle haystack : string) :
  includes needle haystack = true <->
  exists pre post, haystack = pre +:+ needle +:+ post.
Proof.
  induction haystack as [|b hay IH]; cbn [includes].
  - rewrite orb_false_r, prefix_spec. split.
    + intros [post H]. exists "", post. exact H.
    + intros (pre & post & H). destruct pre as [|c pre]; [|discriminate].
      exists post. exact H.
  - rewrite orb_true_iff, prefix_spec, IH. split.
    + intros [[post H]|(pre & post & H)].
      * exists "", post. exact H.
      * exists (String b pre), post. subst hay. reflexivity.
    + intros (pre & post & H). destruct pre as [|c pre].
      * left. exists post. exact H.
      * right. exists pre, post.
        change (String b hay = String c (pre +:+ needle +:+ post)) in H.
        congruence.
Qed.

(** X6.  The stdout handler logs, of every chunk, the text that
    [data.toString()] gives (the chunk's UTF-8 decoding), after the
    words Flask and a colon; and it sets the one-second settle timer
    exactly for a chunk whose text contains Running on, somewhere, in one
    piece; a chunk whose text does not contain it sets no timer. *)
Theorem stdout_readiness (s : State) (data : Buffer) :
  terminated s = false ->
  trace (stimulus (ProcStdout data) s) =
    trace s ++ [(now s, ConsoleLog ["Flask: " +:+ toString data])] /\
  ((exists pre post, toString data = pre +:+ "Running on" +:+ post) ->
   timers (stimulus (ProcStdout data) s) =
     timers s ++ [{| due := now s + 1000; cb := CbResolve |}]) /\
  (~ (exists pre post, toString data = pre +:+ "Running on" +:+ post) ->
   timers (stimulus (ProcStdout data) s) = timers s).
Proof.
  intros Ht. unfold stimulus. rewrite Ht.
  unfold on_stdout_data, setTimeout, console_log.
  pose proof (includes_spec "Running on" (toString data)) as Hspec.
  destruct (includes "Running on" (toString data)).
  - repeat split. intros Hno. exfalso. apply Hno, Hspec. reflexivity.
  - repeat split. intros Hyes. apply Hspec in Hyes. discriminate.
Qed.

Lemma stdout_readiness_witness :
  timers (stimulus (ProcStdout (chunk " * Running on http://127.0.0.1:5000"))
            (boot example_host)) =
  timers (boot example_host)
  ++ [{| due := now (boot example_host) + 1000; cb := CbResolve |}].
Proof.
  destruct (stdout_readiness (boot example_host)
              (chunk " * Running on http://127.0.0.1:5000") eq_refl)
    as (_ & H & _).
  apply H. exists " * ", " http://127.0.0.1:5000". reflexivity.
Defined.

(** ** X7: where the retry loads the page *)





(** ** X8: every platform *)

(** X8.  The script never reads process.platform: on a host of any
    platform a run is, in every effect and at every time, the run of any
    other platform, and it has ended on the one exactly when it has ended
    on the other. *)
Theorem same_run_on_every_platform (h : Host) (p : string)
    (evs : list Stimulus) :
  trace (run evs (boot (with_platform p h))) = trace (run evs (boot h)) /\
  terminated (run evs (boot (with_platform p h)))
  = terminated (run evs (boot h)) /\
  windows (run evs (boot (with_platform p h))) = windows (run evs (boot h)) /\
  timers (run evs (boot (with_platform p h))) = timers (run evs (boot h)).
Proof.
  rewrite boot_with_platform, rehost_run. repeat split.
Qed.

(** ** X9: what the child writes to stderr *)

Lemma state_ext (a b : State) :
  host a = host b -> flaskProcess a = flaskProcess b ->
  mainWindow a = mainWindow b -> promise a = promise b ->
  timers a = timers b -> windows a = windows b ->
  nextWindow a = nextWindow b -> now a = now b ->
  terminated a = terminated b -> trace a = trace b ->
  a = b.
Proof.
  destruct a, b. simpl. intros. subst. reflexivity.
Qed.

Ltac strip_eq :=
  apply state_ext; simpl; rewrite ?List.filter_app; simpl;
  rewrite ?app_nil_r; reflexivity.

Lemma strip_run_callback (c : Callback) (s : State) :
  run_callback c (strip s) = strip (run_callback c s).
Proof.
  destruct c; simpl; unfold_script; cases; strip_eq.
Qed.

Lemma strip_fire (fuel target : nat) (s : State) :
  fire fuel target (strip s) = strip (fire fuel target s).
Proof.
  revert s. induction fuel as [|fuel IH]; intros s; simpl; [reflexivity|].
  destruct (terminated s); [reflexivity|].
  destruct (pop_earliest (timers s)) as [[t rest]|]; [|reflexivity].
  destruct (due t <=? target); [|reflexivity].
  rewrite <- IH. f_equal. rewrite <- strip_run_callback. f_equal.
  strip_eq.
Qed.

Lemma strip_stimulus (ev : Stimulus) (s : State) :
  is_stderr ev = false ->
  stimulus ev (strip s) = strip (stimulus ev s).
Proof.
  intros Hev. destruct ev; try discriminate.
  7: { unfold stimulus, elapse.
       change (terminated (strip s)) with (terminated s).
       change (timers (strip s)) with (timers s).
       change (now (strip s)) with (now s).
       destruct (terminated s); [reflexivity|].
       rewrite strip_fire.
       change (terminated (strip ?x)) with (terminated x).
       destruct (terminated (fire _ _ s)); reflexivity. }
  all: script; unfold is_open; cases; simplify_eq; strip_eq.
Qed.

Lemma strip_stderr (data : Buffer) (s : State) :
  strip (stimulus (ProcStderr data) s) = strip s.
Proof.
  script. destruct (terminated s); [reflexivity|].
  assert (P : String.prefix "Flask Error: "
                ("Flask Error: " +:+ toString data) = true)
    by (apply prefix_spec; eexists; reflexivity).
  apply state_ext; try reflexivity.
  unfold strip, emit. cbn [trace]. rewrite List.filter_app.
  cbn [List.filter snd is_stderr_log]. rewrite P. simpl.
  apply app_nil_r.
Qed.

(** X9.  What the child writes to stderr is logged and changes nothing
    else: a run, and the same run without its stderr events, have the
    same windows, timers, promise and clock, end alike, and show the same
    trace but for the lines Flask Error. *)
Theorem stderr_only_logged (h : Host) (evs : list Stimulus) :
  run (List.filter (fun ev => negb (is_stderr ev)) evs) (boot h)
  = strip (run evs (boot h)) /\
  trace (strip (run evs (boot h))) =
    List.filter (fun te => negb (is_stderr_log (snd te)))
      (trace (run evs (boot h))) /\
  windows (strip (run evs (boot h))) = windows (run evs (boot h)) /\
  timers (strip (run evs (boot h))) = timers (run evs (boot h)) /\
  promise (strip (run evs (boot h))) = promise (run evs (boot h)) /\
  now (strip (run evs (boot h))) = now (run evs (boot h)) /\
  terminated (strip (run evs (boot h))) = terminated (run evs (boot h)).
Proof.
  split; [|repeat split].
  assert (H : forall s,
             run (List.filter (fun ev => negb (is_stderr ev)) evs) (strip s)
             = strip (run evs s)).
  { induction evs as [|ev evs IH]; intros s; simpl; [reflexivity|].
    destruct (is_stderr ev) eqn:E; simpl.
    - destruct ev; try discriminate.
      rewrite <- (IH (stimulus (ProcStderr data) s)), strip_stderr.
      reflexivity.
    - rewrite strip_stimulus by assumption. apply IH. }
  apply (H (boot h)).
Qed.

(** ** X10: the child's output in the log *)

Lemma child_logs_emit (e : Effect) (s : State) :
  child_logs (emit e s)
  = child_logs s ++ (if is_child_log e then [(now s, e)] else []).
Proof.
  unfold child_logs. simpl. rewrite List.filter_app. reflexivity.
Qed.

Lemma run_callback_child_logs (c : Callback) (s : State) :
  child_logs (run_callback c s) = child_logs s.
Proof.
  destruct c; simpl; unfold_script; cases; unfold child_logs; simpl;
    rewrite ?List.filter_app; simpl; rewrite ?app_nil_r; reflexivity.
Qed.

Lemma elapse_child_logs (ms : nat) (s : State) :
  child_logs (elapse ms s) = child_logs s.
Proof.
  unfold elapse.
  assert (H : child_logs (fire (length (timers s)) (now s + ms) s)
              = child_logs s).
  { apply (fire_keeps (fun s' => child_logs s' = child_logs s));
      [|reflexivity].
    intros s0 t rest H _ _. rewrite run_callback_child_logs.
    rewrite child_logs_emit. simpl. rewrite app_nil_r. exact H. }
  destruct (terminated (fire _ _ _)); exact H.
Qed.

Lemma stimulus_child_logs (ev : Stimulus) (s : State) :
  terminated s = false ->
  child_logs (stimulus ev s) = child_logs s ++ child_output [ev] (now s).
Proof.
  intros Ht.
  assert (P1 : forall d, String.prefix "Flask: " ("Flask: " +:+ d) = true)
    by (intros d; apply prefix_spec; eexists; reflexivity).
  assert (P2 : forall d,
             String.prefix "Flask Error: " ("Flask Error: " +:+ d) = true)
    by (intros d; apply prefix_spec; eexists; reflexivity).
  unfold stimulus. rewrite Ht.
  destruct ev.
  8: { simpl. rewrite app_nil_r. apply elapse_child_logs. }
  1: { unfold on_stdout_data, setTimeout, console_log.
       destruct (includes "Running on" (toString data));
         unfold child_logs; cbn [trace set_timers emit];
         rewrite List.filter_app; cbn [List.filter snd is_child_log];
         rewrite P1; reflexivity. }
  1: { unfold on_stderr_data, console_error.
       unfold child_logs; cbn [trace emit];
         rewrite List.filter_app; cbn [List.filter snd is_child_log];
         rewrite P2; reflexivity. }
  all: script; unfold is_open; cases_with Ht; unfold child_logs; simpl;
    rewrite ?List.filter_app; simpl; rewrite ?app_nil_r; reflexivity.
Qed.

(** X10.  In a run that has not ended, the lines Flask and Flask Error
    of the log are the texts of the chunks the child wrote to stdout and
    stderr (of each chunk what [data.toString()] gives, its UTF-8
    decoding): the text of every chunk once, in the order and at the
    time the chunk came. *)
Theorem child_output_is_logged (h : Host) (evs : list Stimulus) :
  terminated (run evs (boot h)) = false ->
  child_logs (run evs (boot h)) = child_output evs 0.
Proof.
  intros Hend.
  assert (H : forall s,
             terminated (run evs s) = false ->
             child_logs (run evs s)
             = child_logs s ++ child_output evs (now s)).
  { clear Hend. induction evs as [|ev evs IH]; intros s Hs; simpl.
    - rewrite app_nil_r. reflexivity.
    - pose proof (run_stays_terminated evs _ Hs) as Hs1.
      pose proof (stimulus_stays_terminated _ _ Hs1) as Hs0.
      rewrite (IH _ Hs), (stimulus_child_logs ev s Hs0), <- app_assoc.
      f_equal. rewrite (stimulus_now ev s Hs1).
      destruct ev; reflexivity. }
  rewrite (H (boot h) Hend). reflexivity.
Qed.

Lemma child_output_is_logged_witness :
  child_logs
    (run [ProcStderr (chunk "WARNING: This is a development server.");
          ProcStdout (chunk " * Running on http://127.0.0.1:5000"); Elapse 1000]
       (boot example_host))
  = child_output
      [ProcStderr (chunk "WARNING: This is a development server.");
       ProcStdout (chunk " * Running on http://127.0.0.1:5000"); Elapse 1000] 0.
Proof.
  apply (child_output_is_logged example_host
           [ProcStderr (chunk "WARNING: This is a development server.");
            ProcStdout (chunk " * Running on http://127.0.0.1:5000"); Elapse 1000]).
  vm_compute. reflexivity.
Defined.

(** ** X11: closing a window *)

Lemma filter_out_all (w : nat) (ws : list nat) :
  List.NoDup ws -> existsb (Nat.eqb w) ws = true ->
  (List.filter (fun x => negb (x =? w)) ws = [] <-> ws = [w]).
Proof.
  intros Hnd Hin. split.
  - destruct ws as [|a r]; [discriminate|]. simpl.
    destruct (a =? w) eqn:E; simpl; [|discriminate].
    apply Nat.eqb_eq in E. subst a. intros Hr.
    destruct r as [|b r]; [reflexivity|]. exfalso.
    simpl in Hr. destruct (b =? w) eqn:E'; simpl in Hr; [|discriminate].
    apply Nat.eqb_eq in E'. subst b.
    inversion Hnd as [|? ? Hnot _]. apply Hnot. left. reflexivity.
  - intros ->. simpl. rewrite Nat.eqb_refl. reflexivity.
Qed.

(** X11.  The user closes an open window of a running application.  If
    it is the only open window the application ends (and the child is
    killed); if another window is open the application runs on with that
    one window, and the variable [mainWindow] is null whichever of the
    two windows was closed. *)
Theorem closing_a_window (h : Host) (evs : list Stimulus) (w : nat) :
  terminated (run evs (boot h)) = false ->
  is_open w (run evs (boot h)) = true ->
  (windows (run evs (boot h)) = [w] ->
   terminated (run (evs ++ [UserCloses w]) (boot h)) = true) /\
  (windows (run evs (boot h)) <> [w] ->
   terminated (run (evs ++ [UserCloses w]) (boot h)) = false /\
   mainWindow (run (evs ++ [UserCloses w]) (boot h)) = None /\
   windows (run (evs ++ [UserCloses w]) (boot h)) =
     List.filter (fun x => negb (x =? w)) (windows (run evs (boot h))) /\
   length (windows (run (evs ++ [UserCloses w]) (boot h))) = 1 /\
   trace (run (evs ++ [UserCloses w]) (boot h))
   = trace (run evs (boot h))).
Proof.
  intros Ht Hw.
  destruct (run_windows_inv h evs) as (_ & Hnd & _ & Hlen & _).
  rewrite run_app. simpl.
  set (s := run evs (boot h)) in *.
  pose proof (filter_out_all w (windows s) Hnd Hw) as Hall.
  pose proof (filter_open_shorter w (windows s) Hw) as Hshort.
  unfold stimulus, close_window, on_closed. rewrite Ht, Hw.
  destruct (List.filter (fun x => negb (x =? w)) (windows s))
    as [|x rest] eqn:F.
  - split.
    + intros _. script. cases_with Ht; reflexivity.
    + intros Hne. exfalso. apply Hne, Hall. reflexivity.
  - split.
    + intros Hone. apply Hall in Hone. discriminate.
    + intros _. simpl. repeat split; try assumption.
      simpl in Hshort.
      destruct rest; [reflexivity|simpl in *; lia].
Qed.

Lemma closing_a_window_witness :
  terminated
    (run ([Activate; Elapse 3000] ++ [UserCloses 1]) (boot example_host))
  = false /\
  mainWindow
    (run ([Activate; Elapse 3000] ++ [UserCloses 1]) (boot example_host))
  = None /\
  length
    (windows
       (run ([Activate; Elapse 3000] ++ [UserCloses 1]) (boot example_host)))
  = 1.
Proof.
  assert (T : terminated (run [Activate; Elapse 3000] (boot example_host))
              = false) by (vm_compute; reflexivity).
  assert (W : is_open 1 (run [Activate; Elapse 3000] (boot example_host))
              = true) by (vm_compute; reflexivity).
  assert (N : windows (run [Activate; Elapse 3000] (boot example_host))
              <> [1]) by (vm_compute; discriminate).
  destruct (closing_a_window example_host [Activate; Elapse 3000] 1 T W)
    as [_ H].
  destruct (H N) as (H1 & H2 & _ & H4 & _).
  repeat split; assumption.
Defined.

(** ** The runs of the definitions, computed *)

(** The user quits from the menu: one kill, no app.quit(). *)
Lemma user_quit_kills_once :
  terminated run_user_quits = true /\
  times_of is_kill run_user_quits = [1000] /\
  times_of is_app_quit run_user_quits = [].
Proof. vm_compute. repeat split; reflexivity. Qed.

(** The child fails at once: the application ends without a window, and
    nothing that comes later is seen. *)
Lemma early_error_no_window :
  terminated run_early_error = true /\
  times_of is_new_window run_early_error = [] /\
  times_of is_app_quit run_early_error = [0] /\
  times_of is_kill run_early_error = [0].
Proof. vm_compute. repeat split; reflexivity. Qed.

(** C2 as stated fails: the load fails at 3000 and is retried at 4000;
    the retry fails too and the load is retried again, at 5000: two
    retries, and one more for every further failure. *)
Lemma second_failure_second_retry :
  times_of is_load_failed (run events_two_failures (boot example_host))
  = [3000; 4000] /\
  times_of is_retry_fired (run events_two_failures (boot example_host))
  = [4000; 5000].
Proof. vm_compute. split; reflexivity. Qed.

